(** * Over-the-air updater (ota.py): model and verified properties

    The development follows the layout of [ota.py]:
    - [Sha1]: the digest behind [hashlib.sha1], over byte strings;
    - [calculate_github_sha] and [valid_code], the two module functions;
    - [OTAFileMetadata], [OTADatabase] and [OTAUpdater], each method as a
      computation over the object and the device (files, persisted
      container, console and network activity);
    - the properties of the reconciliation engine.

    Python [bytes] and [str] are both [string] here: a Rocq [ascii] is one
    8-bit byte, and a text written with [f.write(str(data, 'utf-8'))] is
    read back in binary mode as the bytes of [data]. The output of
    [debug_print] is left out (the objects run with [debug=False]); the
    unconditional [print] calls are kept. *)

From Stdlib Require Import NArith ZArith Ascii String List DecimalString.
From stdpp Require Import base tactics option list strings gmap fin_maps.

Local Open Scope string_scope.

(** ** hashlib.sha1 *)

Module Sha1.
Local Open Scope N_scope.

Definition mask32 (x : N) : N := N.land x 0xFFFFFFFF.
Definition add32 (x y : N) : N := mask32 (x + y).
Definition rotl (n x : N) : N :=
  mask32 (N.lor (N.shiftl x n) (N.shiftr x (32 - n))).
Definition not32 (x : N) : N := N.lxor x 0xFFFFFFFF.

(** Message padding: one 0x80 byte, zero bytes up to 56 modulo 64, then
    the bit length on eight bytes, most significant byte first. *)
Definition be_bytes (count : nat) (x : N) : list N :=
  map (fun i => N.land (N.shiftr x (8 * N.of_nat i)) 0xFF) (rev (seq 0 count)).

Definition pad (msg : list N) : list N :=
  let len := N.of_nat (length msg) in
  let zeros := N.to_nat ((119 - len mod 64) mod 64) in
  msg ++ (0x80 :: repeat 0 zeros) ++ be_bytes 8 (8 * len).

Fixpoint be_words (fuel : nat) (bs : list N) : list N :=
  match fuel, bs with
  | S fuel', b0 :: b1 :: b2 :: b3 :: rest =>
      (N.shiftl b0 24 + N.shiftl b1 16 + N.shiftl b2 8 + b3) :: be_words fuel' rest
  | _, _ => []
  end.

Fixpoint chunks (fuel : nat) (ws : list N) : list (list N) :=
  match fuel, ws with
  | S fuel', _ :: _ => firstn 16 ws :: chunks fuel' (skipn 16 ws)
  | _, _ => []
  end.

(** The 80-word message schedule of one block. *)
Fixpoint schedule (count : nat) (ws : list N) : list N :=
  match count with
  | O => ws
  | S count' =>
      let i := length ws in
      let w k := nth (i - k) ws 0 in
      schedule count' (ws ++ [rotl 1 (N.lxor (N.lxor (w 3%nat) (w 8%nat))
                                             (N.lxor (w 14%nat) (w 16%nat)))])
  end.

Record regs := Regs { ra : N; rb : N; rc : N; rd : N; re : N }.

Definition round (i : nat) (w : N) (r : regs) : regs :=
  let '(Regs a b c d e) := r in
  let '(f, k) :=
    if (i <? 20)%nat then (N.lor (N.land b c) (N.land (not32 b) d), 0x5A827999)
    else if (i <? 40)%nat then (N.lxor (N.lxor b c) d, 0x6ED9EBA1)
    else if (i <? 60)%nat then
      (N.lor (N.lor (N.land b c) (N.land b d)) (N.land c d), 0x8F1BBCDC)
    else (N.lxor (N.lxor b c) d, 0xCA62C1D6) in
  let temp := add32 (add32 (add32 (add32 (rotl 5 a) f) e) k) w in
  Regs temp a (rotl 30 b) c d.

Fixpoint rounds (i : nat) (ws : list N) (r : regs) : regs :=
  match ws with
  | [] => r
  | w :: ws' => rounds (S i) ws' (round i w r)
  end.

Definition compress (h : regs) (block : list N) : regs :=
  let r := rounds 0 (schedule 64 block) h in
  Regs (add32 (ra h) (ra r)) (add32 (rb h) (rb r)) (add32 (rc h) (rc r))
       (add32 (rd h) (rd r)) (add32 (re h) (re r)).

Definition init : regs :=
  Regs 0x67452301 0xEFCDAB89 0x98BADCFE 0x10325476 0xC3D2E1F0.

(** [digest msg]: the twenty bytes of the digest. *)
Definition digest (msg : list N) : list N :=
  let padded := pad msg in
  let ws := be_words (length padded) padded in
  let h := fold_left compress (chunks (length ws) ws) init in
  be_bytes 4 (ra h) ++ be_bytes 4 (rb h) ++ be_bytes 4 (rc h)
    ++ be_bytes 4 (rd h) ++ be_bytes 4 (re h).
End Sha1.

Definition bytes_of_string (s : string) : list N :=
  map N_of_ascii (list_ascii_of_string s).

(** ['{:02x}'.format(byte)] *)
Definition hex_digit (n : N) : ascii :=
  nth (N.to_nat n) (list_ascii_of_string "0123456789abcdef") "0"%char.

Definition hex02 (byte : N) : string :=
  String (hex_digit (N.div byte 16)) (String (hex_digit (N.modulo byte 16)) "").

Definition hexlify (bs : list N) : string :=
  fold_right (fun b acc => hex02 b ++ acc) "" bs.

(** ["%u" % n] *)
Definition decimal (n : nat) : string :=
  NilEmpty.string_of_uint (Nat.to_uint n).

Definition NUL : string := String "000"%char "".

(** ** Exceptions, outcomes and the device *)

Inductive exn :=
  | OTANoMemory | OTANewFileWillNotValidate
  | OSError | TypeError | AttributeError | KeyError | ValueError | RuntimeError.

Global Instance exn_eq_dec : EqDecision exn.
Proof. solve_decision. Defined.

Inductive outcome (A : Type) :=
  | Return (a : A)
  | Raise (e : exn).
Arguments Return {A} a.
Arguments Raise {A} e.

(** What [requests.get(url, headers=...).json()] can do. *)
Inductive response :=
  | JsonError                       (* .json() raises ValueError *)
  | OutOfMemory                     (* MemoryError inside urequests *)
  | NetworkError                    (* OSError from the socket layer *)
  | Json (sha content : option string).  (* the keys 'sha' and 'content' *)

Inductive event :=
  | Get (url : string)
  | Print (text : string)
  | PrintResponse (r : response)
  | Sleep (seconds : Z)
  | Reset.

(** One value of the persisted container: [{"latest": ..., "current": ...}]. *)
Record entry := Entry { e_latest : option string; e_current : option string }.

Global Instance entry_eq_dec : EqDecision entry.
Proof. solve_decision. Defined.

(** The device. [fs] is the flat directory [os.listdir()] shows, file name
    to content. [db_file] is the decoded content of [versions.json], [None]
    when that file does not exist; it is kept apart from [fs], so the model
    covers the deployments in which no monitored file is called
    [versions.json]. [log] lists the outward activity, oldest first.
    [requests] and [gc_runs] count the calls made so far to
    [requests.get] and to [gc.mem_free]. *)
Record device := Device {
  fs : gmap string string;
  db_file : option (gmap string entry);
  log : list event;
  requests : nat;
  gc_runs : nat
}.

(** The collaborators the code calls and does not define: the compiler
    front-end behind [compile], [ubinascii.a2b_base64] ([None]: it raises
    ValueError), the remote end of the n-th [requests.get] and the n-th
    reading of [gc.mem_free]. *)
Class Platform := {
  compile_ok : string -> bool;
  a2b_base64 : string -> option string;
  remote : nat -> string -> response;
  mem_free : nat -> Z
}.

(** Computations over a state [S] that may raise; the state reached when an
    exception is raised is kept, as Python keeps the mutations made before
    a [raise]. *)
Definition M (S A : Type) : Type := S -> outcome A * S.

Definition ret {S A} (a : A) : M S A := fun s => (Return a, s).
Definition raise {S A} (e : exn) : M S A := fun s => (Raise e, s).
Definition bind {S A B} (m : M S A) (k : A -> M S B) : M S B :=
  fun s => match m s with
           | (Return a, s') => k a s'
           | (Raise e, s') => (Raise e, s')
           end.
Definition gets {S A} (f : S -> A) : M S A := fun s => (Return (f s), s).
Definition modify {S} (f : S -> S) : M S unit := fun s => (Return tt, f s).

(** [try: m except e: handler] *)
Definition try_except {S A} (m : M S A) (e : exn) (handler : M S A) : M S A :=
  fun s => match m s with
           | (Raise e', s') => if decide (e' = e) then handler s' else (Raise e', s')
           | r => r
           end.

Notation "'let*' x ':=' m 'in' k" := (bind m (fun x => k))
  (at level 10, x pattern, m at level 100, k at level 200).
Notation "m ';;' k" := (bind m (fun _ => k))
  (at level 100, k at level 200, right associativity).

(** A device computation run from inside a method of an object [O]. *)
Definition on_device {O A} (m : M device A) : M (O * device) A :=
  fun '(o, w) => let '(r, w') := m w in (r, (o, w')).
Definition self {O A} (f : O -> A) : M (O * device) A := gets (fun s => f (fst s)).
Definition set_self {O} (f : O -> O) : M (O * device) unit :=
  modify (fun s => (f (fst s), snd s)).

(** ** Device primitives *)

Definition logged (e : event) (w : device) : device :=
  Device (fs w) (db_file w) (log w ++ [e]) (requests w) (gc_runs w).
Definition with_fs (files : gmap string string) (w : device) : device :=
  Device files (db_file w) (log w) (requests w) (gc_runs w).
Definition with_db (data : option (gmap string entry)) (w : device) : device :=
  Device (fs w) data (log w) (requests w) (gc_runs w).
Definition sent (url : string) (w : device) : device :=
  Device (fs w) (db_file w) (log w ++ [Get url]) (S (requests w)) (gc_runs w).
Definition collected (w : device) : device :=
  Device (fs w) (db_file w) (log w) (requests w) (S (gc_runs w)).

Definition emit (e : event) : M device unit := modify (logged e).

Definition set_fs (f : gmap string string -> gmap string string) : M device unit :=
  modify (fun w => with_fs (f (fs w)) w).

Definition print (text : string) : M device unit := emit (Print text).
Definition sleep (seconds : Z) : M device unit := emit (Sleep seconds).
Definition machine_reset : M device unit := emit Reset.

(** [name in os.listdir()] *)
Definition listed (name : string) : M device bool :=
  gets (fun w => bool_decide (is_Some (fs w !! name))).

(** [with open(path, 'w') as f: f.write(text)] *)
Definition write_file (path text : string) : M device unit :=
  set_fs (fun files => <[path := text]> files).

(** [os.rename(src, dst)]: TypeError when [src] is [None], OSError when it
    names no file; otherwise [dst] is replaced. *)
Definition os_rename (src : option string) (dst : string) : M device unit :=
  match src with
  | None => raise TypeError
  | Some src =>
      let* found := gets (fun w => fs w !! src) in
      match found with
      | None => raise OSError
      | Some data => set_fs (fun files => <[dst := data]> (delete src files))
      end
  end.

Section Collaborators.
Context `{Platform}.

(** [requests.get(url, headers=...).json()], exceptions included. *)
Definition requests_get_json (url : string) : M device response :=
  let* n := gets requests in
  modify (sent url);;
  ret (remote n url).

(** [gc.collect(); gc.mem_free()] *)
Definition gc_mem_free : M device Z :=
  let* n := gets gc_runs in
  modify collected;;
  ret (mem_free n).
End Collaborators.

(** ** Module functions *)

(** The read loop of [calculate_github_sha]: chunks of [chunk_size] bytes
    are appended to [data] until an empty chunk comes back. [fuel] bounds
    the number of reads. *)
Fixpoint read_chunks (fuel : nat) (chunk_size : nat) (pending data : string) : string :=
  match fuel with
  | O => data
  | S fuel' =>
      let chunk := substring 0 chunk_size pending in
      match chunk with
      | EmptyString => data
      | _ => read_chunks fuel' chunk_size
               (substring chunk_size (String.length pending - chunk_size) pending)
               (data ++ chunk)
      end
  end.

Definition read_binary (content : string) : string :=
  read_chunks (S (String.length content)) 1024 content "".

(** The hex digest of ["blob %u\0" % len(data)] followed by [data]. *)
Definition github_sha (data : string) : string :=
  hexlify (Sha1.digest
    (bytes_of_string ("blob " ++ decimal (String.length data) ++ NUL)
     ++ bytes_of_string data)).

Definition calculate_github_sha (files : gmap string string) (filename : string) : string :=
  match files !! filename with
  | None => ""
  | Some content => github_sha (read_binary content)
  end.

Section ValidCode.
Context `{Platform}.

(** [valid_code]: false for a missing file and for one that does not
    compile. *)
Definition valid_code (file_path : string) : M device bool :=
  let* found := gets (fun w => fs w !! file_path) in
  match found with
  | None => ret false
  | Some python_code => ret (compile_ok python_code)
  end.
End ValidCode.

(** [for x in xs: body(acc, x)], [acc] standing for the local variables the
    loop body assigns; the objects are mutated in place, and an exception
    leaves the rest of the list as it was. *)
Fixpoint for_each_acc {O W A} (body : A -> M (O * W) A) (acc : A) (objs : list O) (w : W)
  : outcome A * (list O * W) :=
  match objs with
  | [] => (Return acc, ([], w))
  | o :: rest =>
      match body acc (o, w) with
      | (Return acc', (o', w')) =>
          let '(r, (rest', w'')) := for_each_acc body acc' rest w' in
          (r, (o' :: rest', w''))
      | (Raise e, (o', w')) => (Raise e, (o' :: rest, w'))
      end
  end.

(** [for x in xs: body(x)] over values that are only read. *)
Fixpoint iter {S A} (body : A -> M S unit) (xs : list A) : M S unit :=
  match xs with
  | [] => ret tt
  | x :: rest => body x;; iter body rest
  end.

(** ** class OTAFileMetadata *)

(** [f'https://api.github.com/repos/{repository}/contents/{filename}'] *)
Definition contents_url (repository name : string) : string :=
  "https://api.github.com/repos/" ++ repository ++ "/contents/" ++ name.

Module OTAFileMetadata.

Definition LATEST_FILE_PREFIX : string := "__latest__".
Definition ERROR_FILE_PREFIX : string := "__error__".
Definition BACKUP_FILE_PREFIX : string := "__backup__".
Definition OTA_MINIMUM_MEMORY : Z := 32000.

Record t := Make {
  filename : string;
  url : string;
  save_backups : bool;
  latest : option string;
  latest_file : option string;
  current : option string;
  request_header : string * string   (* Authorization, User-Agent *)
}.

Definition set_latest (v : option string) (m : t) : t :=
  Make (filename m) (url m) (save_backups m) v (latest_file m) (current m)
       (request_header m).
Definition set_latest_file (v : option string) (m : t) : t :=
  Make (filename m) (url m) (save_backups m) (latest m) v (current m)
       (request_header m).
Definition set_current (v : option string) (m : t) : t :=
  Make (filename m) (url m) (save_backups m) (latest m) (latest_file m) v
       (request_header m).

Definition get_filename (m : t) : string := filename m.
Definition get_current (m : t) : option string := current m.
Definition get_latest (m : t) : option string := latest m.

Definition to_json (m : t) : string * entry :=
  (filename m, Entry (latest m) (current m)).

(** [bool(self.current != self.latest)] *)
Definition new_version_available (m : t) : bool :=
  bool_decide (current m ≠ latest m).

Section Methods.
Context `{Platform}.

Definition mem_check : M (t * device) unit :=
  let* free_mem := on_device gc_mem_free in
  if (free_mem <? OTA_MINIMUM_MEMORY)%Z then raise OTANoMemory else ret tt.

(** The branch of [update_latest] taken when the response has a 'sha'. *)
Definition stage (sha : string) (content : option string) : M (t * device) unit :=
  set_self (set_latest (Some sha));;
  let* newer := self new_version_available in
  if newer then
    match content with
    | None => raise KeyError
    | Some encoded =>
        match a2b_base64 encoded with
        | None => raise ValueError
        | Some file_content =>
            let* name := self get_filename in
            let staged := LATEST_FILE_PREFIX ++ name in
            set_self (set_latest_file (Some staged));;
            on_device (write_file staged file_content);;
            let* valid := on_device (valid_code staged) in
            if valid then ret tt
            else
              let error_file := ERROR_FILE_PREFIX ++ name in
              on_device (os_rename (Some staged) error_file);;
              set_self (set_latest_file None);;
              raise OTANewFileWillNotValidate
        end
    end
  else ret tt.

Definition update_latest : M (t * device) unit :=
  mem_check;;
  let* address := self url in
  let* reply := on_device (requests_get_json address) in
  match reply with
  | JsonError =>
      on_device (print "OTAF: Json error in response");;
      on_device (print ("OTAF: URL =  " ++ address))
  | OutOfMemory => raise OTANoMemory
  | NetworkError => raise OSError
  | Json sha content =>
      mem_check;;
      match sha with
      | Some sha => stage sha content
      | None =>
          on_device (print ("OTAF: URL =  " ++ address));;
          on_device (emit (PrintResponse reply));;
          on_device (sleep 1)
      end
  end.

Definition set_current_to_latest : M (t * device) unit :=
  let* backups := self save_backups in
  let* name := self get_filename in
  let* present := on_device (listed name) in
  (if backups && present
   then on_device (os_rename (Some name) (BACKUP_FILE_PREFIX ++ name))
   else ret tt);;
  let* staged := self latest_file in
  on_device (os_rename staged name);;
  let* newest := self latest in
  set_self (set_current newest).

Definition __init__ (user token repository name : string) (backups : bool)
  : M device t :=
  fun w =>
    let m := Make name (contents_url repository name) backups None None
               (Some (calculate_github_sha (fs w) name))
               ("token " ++ token, user) in
    match update_latest (m, w) with
    | (Return _, (m', w')) => (Return m', w')
    | (Raise e, (_, w')) => (Raise e, w')
    end.
End Methods.
End OTAFileMetadata.

(** ** class OTADatabase *)

Module OTADatabase.

Definition DB_FILE : string := "versions.json".

Definition set_db (v : option (gmap string entry)) : M device unit :=
  modify (with_db v).

Definition db_file_exists : M device bool :=
  gets (fun w => bool_decide (is_Some (db_file w))).

(** [None] when the file cannot be opened. *)
Definition read : M device (option (gmap string entry)) := gets db_file.

Definition write (data : gmap string entry) : M device unit := set_db (Some data).

Definition entry_exists (name : string) : M device bool :=
  let* data := read in
  match data with
  | Some data => ret (bool_decide (is_Some (data !! name)))
  | None => ret false
  end.

Definition get_entry (name : string) : M device (option entry) :=
  let* data := read in
  match data with
  | Some data => ret (data !! name)
  | None => ret None
  end.

Definition create (item : string * entry) : M device unit :=
  let name := fst item in
  let* known := entry_exists name in
  if negb known then
    let* data := read in
    let data := match data with Some data => data | None => ∅ end in
    write (<[name := snd item]> data)
  else raise RuntimeError.

Definition delete (name : string) : M device unit :=
  let* data := read in
  let* known := entry_exists name in
  if known then
    match data with
    | Some data => write (base.delete name data)
    | None => raise TypeError
    end
  else ret tt.

(** [data] is read before [delete] runs; [data.update] on [None] is an
    AttributeError. *)
Definition update (new_item : string * entry) : M device unit :=
  let name := fst new_item in
  let* data := read in
  delete name;;
  match data with
  | None => raise AttributeError
  | Some data => write (<[name := snd new_item]> data)
  end.

Definition __init__ (version_entries : list OTAFileMetadata.t) : M device unit :=
  let* present := db_file_exists in
  if present then
    iter (fun version_entry =>
            let* known := entry_exists (OTAFileMetadata.get_filename version_entry) in
            if negb known then create (OTAFileMetadata.to_json version_entry)
            else ret tt)
         version_entries
  else
    iter (fun e => create (OTAFileMetadata.to_json e)) version_entries.
End OTADatabase.

(** ** class OTAUpdater *)

(** What a Python call hands back: [True], [False], or [None] when the
    function body ends without a [return]. *)
Inductive value :=
  | VNone
  | VBool (b : bool).

Module OTAUpdater.

Record t := Make {
  files_obj : list OTAFileMetadata.t;
  save_backups : bool;
  update_interval_minutes : option Z;
  update_interval_seconds : option Z;
  last_update_time : option Z
}.

Definition set_files_obj (v : list OTAFileMetadata.t) (u : t) : t :=
  Make v (save_backups u) (update_interval_minutes u) (update_interval_seconds u)
       (last_update_time u).
Definition set_last_update_time (v : option Z) (u : t) : t :=
  Make (files_obj u) (save_backups u) (update_interval_minutes u)
       (update_interval_seconds u) v.

(** A loop over [self.files_obj]. *)
Definition over_files {A} (body : A -> M (OTAFileMetadata.t * device) A) (acc : A)
  : M (t * device) A :=
  fun '(u, w) =>
    let '(r, (files', w')) := for_each_acc body acc (files_obj u) w in
    (r, (set_files_obj files' u, w')).

Section Methods.
Context `{Platform}.

Definition fetch_updates : M (t * device) unit :=
  try_except
    (over_files (fun _ => OTAFileMetadata.update_latest) tt)
    OTANewFileWillNotValidate
    (on_device (print "OTAU: Validation error. Cannot update")).

(** The body of the second loop of [_check_for_updates];
    [files_updated_flag] is the local it assigns. *)
Definition apply_entry (files_updated_flag : bool)
  : M (OTAFileMetadata.t * device) bool :=
  let* newer := self OTAFileMetadata.new_version_available in
  if newer then
    OTAFileMetadata.set_current_to_latest;;
    let* item := self OTAFileMetadata.to_json in
    on_device (OTADatabase.update item);;
    if negb files_updated_flag then ret true else ret files_updated_flag
  else ret files_updated_flag.

Definition _check_for_updates : M (t * device) bool :=
  fetch_updates;;
  over_files apply_entry false.

(** After [machine.reset()] the body ends: were the call to come back,
    the method would hand back [None]. *)
Definition _check_and_apply_updates (current_time : Z) : M (t * device) value :=
  let* applied := _check_for_updates in
  if applied then
    set_self (set_last_update_time (Some current_time));;
    on_device (sleep 1);;
    on_device machine_reset;;
    ret VNone
  else ret (VBool false).

(** [current_time] is what [utime.time()] answers on entry. *)
Definition updated (force_update : bool) (current_time : Z) : M (t * device) value :=
  if force_update then _check_and_apply_updates current_time
  else
    let* interval := self update_interval_seconds in
    match interval with
    | Some seconds =>
        let* last := self last_update_time in
        match last with
        | None => _check_and_apply_updates current_time
        | Some last =>
            if (seconds <=? current_time - last)%Z
            then _check_and_apply_updates current_time
            else ret (VBool false)
        end
    | None => _check_and_apply_updates current_time
    end.

(** The two nested loops of [__init__]: one [OTAFileMetadata] per file
    of each repository, in the order [repo_dct] is walked. *)
Fixpoint make_files (user token repo : string) (names : list string) (backups : bool)
  : M device (list OTAFileMetadata.t) :=
  match names with
  | [] => ret []
  | name :: rest =>
      let* m := OTAFileMetadata.__init__ user token repo name backups in
      let* ms := make_files user token repo rest backups in
      ret (m :: ms)
  end.

Fixpoint make_repos (user token : string) (repo_dct : list (string * list string))
  (backups : bool) : M device (list OTAFileMetadata.t) :=
  match repo_dct with
  | [] => ret []
  | (repo, names) :: rest =>
      let* ms := make_files user token repo names backups in
      let* ms' := make_repos user token rest backups in
      ret (ms ++ ms')%list
  end.

Definition __init__ (github_userid github_token : string)
  (repo_dct : list (string * list string)) (interval_minutes : option Z)
  (update_on_initialization backups : bool) (current_time : Z) : M device t :=
  let* files := make_repos github_userid github_token repo_dct backups in
  OTADatabase.__init__ files;;
  let u := Make files backups interval_minutes
             (option_map (fun minutes => minutes * 60)%Z interval_minutes) None in
  if update_on_initialization then
    fun w => match updated true current_time (u, w) with
             | (Return _, (u', w')) => (Return u', w')
             | (Raise e, (_, w')) => (Raise e, w')
             end
  else ret u.
End Methods.
End OTAUpdater.

(** ** A concrete platform for the scenarios

    [ubinascii.a2b_base64] as the scenarios use it: characters outside the
    alphabet (line breaks, padding) are skipped, four sextets give three
    bytes, and a single dangling sextet is an error. *)

Module Base64.
Local Open Scope N_scope.

Definition alphabet : list ascii :=
  list_ascii_of_string
    "ABCDEFGHIJKLMNOPQRSTUVWXYZabcdefghijklmnopqrstuvwxyz0123456789+/".

Fixpoint index_of (c : ascii) (cs : list ascii) (i : N) : option N :=
  match cs with
  | [] => None
  | c' :: cs' => if Ascii.eqb c c' then Some i else index_of c cs' (i + 1)
  end.

Definition sextets (s : string) : list N :=
  omap (fun c => index_of c alphabet 0) (list_ascii_of_string s).

Fixpoint octets (vs : list N) : option (list N) :=
  match vs with
  | a :: b :: c :: d :: rest =>
      option_map (fun tail => a * 4 + b / 16 :: (b mod 16) * 16 + c / 4
                                :: (c mod 4) * 64 + d :: tail)
                 (octets rest)
  | [a; b; c] => Some [a * 4 + b / 16; (b mod 16) * 16 + c / 4]
  | [a; b] => Some [a * 4 + b / 16]
  | [_] => None
  | [] => Some []
  end.

Definition decode (s : string) : option string :=
  option_map (fun bytes => string_of_list_ascii (map ascii_of_N bytes))
             (octets (sextets s)).
End Base64.

(** The compiler front-end of the scenarios rejects the one-character
    program ["("] and accepts everything else. *)
Definition demo_compile_ok (code : string) : bool := negb (String.eqb code "(").

(** A remote holding ["x = 1"] as [main.py] and ["("] as [bad.py], each with
    the fingerprint GitHub reports for that content; anything else is
    answered without a 'sha'. *)
Definition demo_remote (n : nat) (url : string) : response :=
  if String.eqb url (contents_url "o/r" "main.py")
  then Json (Some "3d2b4b14efe535966493ee555dd7faa81063a251") (Some "eCA9IDE=")
  else if String.eqb url (contents_url "o/r" "bad.py")
  then Json (Some "f46d387bf94c89b81aaec9cff2ee52d1f9ab4187") (Some "KA==")
  else Json None None.

Definition demo_platform : Platform := {|
  compile_ok := demo_compile_ok;
  a2b_base64 := Base64.decode;
  remote := demo_remote;
  mem_free := fun _ => 100000%Z
|}.

(** The same platform on a device whose free memory has fallen under the
    floor from the [k]-th reading on. *)
Definition starved_platform (k : nat) : Platform := {|
  compile_ok := demo_compile_ok;
  a2b_base64 := Base64.decode;
  remote := demo_remote;
  mem_free := fun n => if (n <? k)%nat then 100000%Z else 1000%Z
|}.

Definition blank_device : device := Device ∅ None [] 0 0.

(** A monitored file as [OTAFileMetadata.__init__] leaves it before its
    first fetch, when no local copy exists. *)
Definition fresh_file (name : string) (backups : bool) : OTAFileMetadata.t :=
  OTAFileMetadata.Make name (contents_url "o/r" name) backups None None (Some "")
    ("token t", "u").

(** An orchestrator over the given files, with no interval and no run yet. *)
Definition updater_of (files : list OTAFileMetadata.t) : OTAUpdater.t :=
  OTAUpdater.Make files false None None None.

(** A device with an empty container and nothing else. *)
Definition empty_store_device : device := Device ∅ (Some ∅) [] 0 0.


(** [bad.py] ahead of [main.py]: the first download does not compile. *)
Definition rejected_fetch :=
  @OTAUpdater.fetch_updates demo_platform
    (updater_of [fresh_file "bad.py" false; fresh_file "main.py" false],
     empty_store_device).

(** One monitored file with a newer, well-formed remote version, and a
    forced check at time 5. *)
Definition forced_update :=
  @OTAUpdater.updated demo_platform true 5
    (updater_of [fresh_file "main.py" false], empty_store_device).

(** [main.py] after a fetch that found a newer, well-formed version: the
    download is staged, nothing is promoted yet. *)
Definition staged_main : OTAFileMetadata.t :=
  OTAFileMetadata.Make "main.py" (contents_url "o/r" "main.py") false
    (Some "3d2b4b14efe535966493ee555dd7faa81063a251") (Some "__latest__main.py")
    (Some "") ("token t", "u").


(** The device once an orchestrator over [main.py] has been constructed on
    [blank_device]. *)
Definition constructed_device : device :=
  Device {[ "__latest__main.py" := "x = 1" ]}
    (Some {[ "main.py" := Entry (Some "3d2b4b14efe535966493ee555dd7faa81063a251")
                                (Some "") ]})
    [Get (contents_url "o/r" "main.py")] 1 2.


Definition installed_device : device :=
  Device {[ "main.py" := "x = 1" ]}
    (Some {[ "main.py" := Entry (Some "3d2b4b14efe535966493ee555dd7faa81063a251")
                                (Some "3d2b4b14efe535966493ee555dd7faa81063a251") ]})
    [Get (contents_url "o/r" "main.py")] 1 2.





(** The outcome of the pass over [main.py] alone on [demo_platform]. *)
Definition promoted_main : OTAFileMetadata.t :=
  OTAFileMetadata.Make "main.py" (contents_url "o/r" "main.py") false
    (Some "3d2b4b14efe535966493ee555dd7faa81063a251") (Some "__latest__main.py")
    (Some "3d2b4b14efe535966493ee555dd7faa81063a251") ("token t", "u").

Definition promoted_device : device :=
  Device {[ "main.py" := "x = 1" ]}
    (Some {[ "main.py" := Entry (Some "3d2b4b14efe535966493ee555dd7faa81063a251")
                                (Some "3d2b4b14efe535966493ee555dd7faa81063a251") ]})
    [Get (contents_url "o/r" "main.py")] 1 2.

(** A device whose network is down: every request fails in the socket
    layer. *)
Definition offline_platform : Platform := {|
  compile_ok := demo_compile_ok;
  a2b_base64 := Base64.decode;
  remote := fun _ _ => NetworkError;
  mem_free := fun _ => 100000%Z
|}.

(** [main.py] on a device that runs the content ["x = 0"], monitored with
    backups on, before and after a newer version has been staged. *)
Definition running_main : OTAFileMetadata.t :=
  OTAFileMetadata.Make "main.py" (contents_url "o/r" "main.py") true None None
    (Some "74213d097ec61579b720950c118f518028883071") ("token t", "u").

Definition running_main_staged : OTAFileMetadata.t :=
  OTAFileMetadata.Make "main.py" (contents_url "o/r" "main.py") true
    (Some "3d2b4b14efe535966493ee555dd7faa81063a251") (Some "__latest__main.py")
    (Some "74213d097ec61579b720950c118f518028883071") ("token t", "u").

Definition running_device : device :=
  Device {[ "main.py" := "x = 0" ]} (Some ∅) [] 0 0.

Definition running_device_staged : device :=
  Device {[ "main.py" := "x = 0"; "__latest__main.py" := "x = 1" ]} (Some ∅) [] 0 0.

(** ** Vocabulary of the statements *)



(** The directory after the backup step of [set_current_to_latest]. *)
Definition backed_up (m : OTAFileMetadata.t) (files : gmap string string)
  : gmap string string :=
  if OTAFileMetadata.save_backups m then
    match files !! OTAFileMetadata.filename m with
    | Some old =>
        <[OTAFileMetadata.BACKUP_FILE_PREFIX ++ OTAFileMetadata.filename m := old]>
          (base.delete (OTAFileMetadata.filename m) files)
    | None => files
    end
  else files.

(** The staged path of a monitored file. *)
Definition staged_path (m : OTAFileMetadata.t) : string :=
  OTAFileMetadata.LATEST_FILE_PREFIX ++ OTAFileMetadata.filename m.



(** The container apart, a device is left as it was. *)
Definition only_db_differs (w w' : device) : Prop :=
  fs w' = fs w /\ log w' = log w /\ requests w' = requests w /\ gc_runs w' = gc_runs w.

(** The log has grown, and by no [Reset]. *)
Definition grown_without_reset (w w' : device) : Prop :=
  exists l, log w' = (log w ++ l)%list /\ Reset ∉ l.

(** The identity of a monitored file: what the constructor fixed. *)
Definition same_identity (m m' : OTAFileMetadata.t) : Prop :=
  OTAFileMetadata.filename m' = OTAFileMetadata.filename m
  /\ OTAFileMetadata.url m' = OTAFileMetadata.url m
  /\ OTAFileMetadata.save_backups m' = OTAFileMetadata.save_backups m
  /\ OTAFileMetadata.request_header m' = OTAFileMetadata.request_header m.

(** The gating policy of [updated]: whether the call runs a pass. *)
Definition runs_pass (force_update : bool) (current_time : Z) (u : OTAUpdater.t) : bool :=
  force_update
  || match OTAUpdater.update_interval_seconds u, OTAUpdater.last_update_time u with
     | Some seconds, Some last => (seconds <=? current_time - last)%Z
     | _, _ => true
     end.

Section Vocabulary.
Context `{Platform}.







End Vocabulary.

(** * Properties *)

(** ** The digest and the fingerprint on known values *)

Example sha1_empty :
  hexlify (Sha1.digest (bytes_of_string "")) = "da39a3ee5e6b4b0d3255bfef95601890afd80709".
Proof. vm_compute. reflexivity. Qed.

Example sha1_abc :
  hexlify (Sha1.digest (bytes_of_string "abc")) = "a9993e364706816aba3e25717850c26c9cd0d89d".
Proof. vm_compute. reflexivity. Qed.

Example sha1_two_blocks :
  hexlify (Sha1.digest (bytes_of_string
    "abcdbcdecdefdefgefghfghighijhijkijkljklmklmnlmnomnopnopq"))
  = "84983e441c3bd26ebaae4aa1f95129e5e54670f1".
Proof. vm_compute. reflexivity. Qed.

Example github_sha_empty_blob :
  calculate_github_sha {[ "empty.py" := "" ]} "empty.py"
  = "e69de29bb2d1d6434b8b29ae775ad8c2e48c5391".
Proof. vm_compute. reflexivity. Qed.

Example github_sha_missing : calculate_github_sha ∅ "main.py" = "".
Proof. reflexivity. Qed.

(** ** Strings and the read loop *)

Lemma append_cons c (a b : string) : String c a ++ b = String c (a ++ b).
Proof. reflexivity. Qed.

Lemma append_assoc (a b c : string) : (a ++ b) ++ c = a ++ (b ++ c).
Proof. induction a as [|x a IH]; [done | by rewrite !append_cons, IH]. Qed.

Lemma append_empty_r (a : string) : a ++ "" = a.
Proof. induction a as [|x a IH]; [done | by rewrite append_cons, IH]. Qed.

Lemma substring_zero_zero s : substring 0 0 s = "".
Proof. by destruct s. Qed.

Lemma substring_whole s : substring 0 (String.length s) s = s.
Proof. induction s as [|c s IH]; simpl; [done | by rewrite IH]. Qed.

Lemma substring_split n s :
  substring 0 n s ++ substring n (String.length s - n) s = s.
Proof.
  revert s. induction n as [|n IH]; intros s.
  - rewrite substring_zero_zero, Nat.sub_0_r. apply substring_whole.
  - destruct s as [|c s]; simpl; [done | by rewrite append_cons, IH].
Qed.

Lemma substring_rest_length n s :
  String.length (substring n (String.length s - n) s) = String.length s - n.
Proof.
  revert s. induction n as [|n IH]; intros s.
  - by rewrite Nat.sub_0_r, substring_whole.
  - destruct s as [|c s]; simpl; [done | apply IH].
Qed.

Lemma substring_head_empty n s : substring 0 (S n) s = "" -> s = "".
Proof. by destruct s. Qed.

(** The read loop hands back the whole content, whatever the chunk size. *)
Lemma read_chunks_all fuel size pending data :
  String.length pending < fuel ->
  read_chunks fuel (S size) pending data = data ++ pending.
Proof.
  revert pending data. induction fuel as [|fuel IH]; intros pending data Hlt; [lia|].
  simpl. destruct (substring 0 (S size) pending) as [|c chunk] eqn:Hchunk.
  - apply substring_head_empty in Hchunk. subst. by rewrite append_empty_r.
  - rewrite IH.
    + rewrite append_assoc, <- Hchunk. by rewrite substring_split.
    + rewrite substring_rest_length.
      destruct pending; simpl in *; [discriminate | lia].
Qed.



(** ** Normal forms of the methods *)

Section Methods.
Context `{Platform}.
Import OTAFileMetadata.

Ltac unfold_m :=
  unfold update_latest, stage, mem_check, set_current_to_latest, valid_code,
    requests_get_json, gc_mem_free, os_rename, write_file, listed, print, sleep,
    machine_reset, emit, set_fs, on_device, self, set_self,
    bind, ret, raise, gets, modify in *.

Lemma update_latest_unfold m w :
  update_latest (m, w) =
  if (mem_free (gc_runs w) <? OTA_MINIMUM_MEMORY)%Z
  then (Raise OTANoMemory, (m, collected w))
  else
    let w2 := sent (url m) (collected w) in
    match remote (requests w) (url m) with
    | JsonError =>
        (Return tt,
         (m, logged (Print ("OTAF: URL =  " ++ url m))
               (logged (Print "OTAF: Json error in response") w2)))
    | OutOfMemory => (Raise OTANoMemory, (m, w2))
    | NetworkError => (Raise OSError, (m, w2))
    | Json sha content =>
        let w3 := collected w2 in
        if (mem_free (S (gc_runs w)) <? OTA_MINIMUM_MEMORY)%Z
        then (Raise OTANoMemory, (m, w3))
        else
          match sha with
          | None =>
              (Return tt,
               (m, logged (Sleep 1)
                     (logged (PrintResponse (Json None content))
                        (logged (Print ("OTAF: URL =  " ++ url m)) w3))))
          | Some s =>
              let m1 := set_latest (Some s) m in
              if new_version_available m1 then
                match content with
                | None => (Raise KeyError, (m1, w3))
                | Some encoded =>
                    match a2b_base64 encoded with
                    | None => (Raise ValueError, (m1, w3))
                    | Some c =>
                        if compile_ok c
                        then (Return tt,
                              (set_latest_file (Some (staged_path m)) m1,
                               with_fs (<[staged_path m := c]> (fs w)) w3))
                        else (Raise OTANewFileWillNotValidate,
                              (set_latest_file None m1,
                               with_fs (<[ERROR_FILE_PREFIX ++ filename m := c]>
                                          (base.delete (staged_path m)
                                             (<[staged_path m := c]> (fs w)))) w3))
                    end
                end
              else (Return tt, (m1, w3))
          end
    end.
Proof.
  unfold_m. unfold staged_path, collected, sent, logged, with_fs. simpl.
  destruct (mem_free (gc_runs w) <? OTA_MINIMUM_MEMORY)%Z; simpl; [reflexivity|].
  destruct (remote (requests w) (url m)) as [| | |sha content]; simpl; try reflexivity.
  destruct (mem_free (S (gc_runs w)) <? OTA_MINIMUM_MEMORY)%Z; simpl; [reflexivity|].
  destruct sha as [s|]; simpl; [|reflexivity].
  destruct (new_version_available (set_latest (Some s) m)); simpl; [|reflexivity].
  destruct content as [encoded|]; simpl; [|reflexivity].
  destruct (a2b_base64 encoded) as [c|]; simpl; [|reflexivity].
  unfold get_filename. simpl. rewrite !lookup_insert_eq.
  destruct (compile_ok c); simpl; [reflexivity|].
  rewrite !lookup_insert_eq. reflexivity.
Qed.

Lemma set_current_to_latest_unfold m w :
  set_current_to_latest (m, w) =
  let files := backed_up m (fs w) in
  match latest_file m with
  | None => (Raise TypeError, (m, with_fs files w))
  | Some p =>
      match files !! p with
      | None => (Raise OSError, (m, with_fs files w))
      | Some c =>
          (Return tt,
           (set_current (latest m) m,
            with_fs (<[filename m := c]> (base.delete p files)) w))
      end
  end.
Proof.
  unfold_m. unfold backed_up, get_filename, with_fs. simpl.
  destruct (save_backups m); simpl.
  - destruct (fs w !! filename m) as [old|] eqn:Hlive; simpl;
      rewrite ?Hlive; simpl.
    + destruct (latest_file m) as [p|]; simpl; [|reflexivity].
      by destruct (_ !! p).
    + destruct (latest_file m) as [p|]; simpl; [|by destruct w].
      destruct (fs w !! p); [reflexivity | by destruct w].
  - destruct (latest_file m) as [p|]; simpl; [|by destruct w].
    destruct (fs w !! p); [reflexivity | by destruct w].
Qed.
End Methods.

(** ** Loops *)


(** ** Normal forms of the orchestrator *)

Section Orchestrator.
Context `{Platform}.
Import OTAUpdater.

Lemma database_update_unfold name item w :
  OTADatabase.update (name, item) w =
  match db_file w with
  | Some data => (Return tt, with_db (Some (<[name := item]> data)) w)
  | None => (Raise AttributeError, w)
  end.
Proof.
  unfold OTADatabase.update, OTADatabase.delete, OTADatabase.entry_exists,
    OTADatabase.read, OTADatabase.write, OTADatabase.set_db, with_db,
    bind, gets, modify, ret, raise. simpl.
  destruct (db_file w) as [data|]; simpl; [|reflexivity].
  destruct (bool_decide (is_Some (data !! name))); reflexivity.
Qed.

Lemma database_delete_unfold name w :
  OTADatabase.delete name w =
  match db_file w with
  | Some data =>
      if bool_decide (is_Some (data !! name))
      then (Return tt, with_db (Some (base.delete name data)) w)
      else (Return tt, w)
  | None => (Return tt, w)
  end.
Proof.
  unfold OTADatabase.delete, OTADatabase.entry_exists,
    OTADatabase.read, OTADatabase.write, OTADatabase.set_db, with_db,
    bind, gets, modify, ret, raise. simpl.
  destruct (db_file w) as [data|]; simpl; [|reflexivity].
  destruct (bool_decide (is_Some (data !! name))); reflexivity.
Qed.

Lemma apply_entry_unfold flag m w :
  apply_entry flag (m, w) =
  if OTAFileMetadata.new_version_available m then
    match OTAFileMetadata.set_current_to_latest (m, w) with
    | (Return _, (m', w')) =>
        match OTADatabase.update (OTAFileMetadata.to_json m') w' with
        | (Return _, w'') => (Return true, (m', w''))
        | (Raise e, w'') => (Raise e, (m', w''))
        end
    | (Raise e, s) => (Raise e, s)
    end
  else (Return flag, (m, w)).
Proof.
  unfold apply_entry, bind, self, gets, on_device, ret. simpl.
  destruct (OTAFileMetadata.new_version_available m); [|reflexivity].
  destruct (OTAFileMetadata.set_current_to_latest (m, w)) as [[[]|e] [m' w']];
    [|reflexivity].
  simpl. destruct (OTADatabase.update (OTAFileMetadata.to_json m') w') as [[[]|e] w''];
    [|reflexivity].
  by destruct flag.
Qed.

Lemma fetch_updates_unfold u w :
  fetch_updates (u, w) =
  match for_each_acc (fun _ => OTAFileMetadata.update_latest) tt (files_obj u) w with
  | (Raise OTANewFileWillNotValidate, (files', w')) =>
      (Return tt,
       (set_files_obj files' u,
        logged (Print "OTAU: Validation error. Cannot update") w'))
  | (r, (files', w')) => (r, (set_files_obj files' u, w'))
  end.
Proof.
  unfold fetch_updates, try_except, over_files.
  destruct (for_each_acc _ tt (files_obj u) w) as [[[]|e] [files' w']]; [reflexivity|].
  by destruct e.
Qed.

Lemma check_for_updates_unfold u w :
  _check_for_updates (u, w) =
  match fetch_updates (u, w) with
  | (Return _, (u1, w1)) =>
      let '(r, (files', w')) := for_each_acc apply_entry false (files_obj u1) w1 in
      (r, (set_files_obj files' u1, w'))
  | (Raise e, s) => (Raise e, s)
  end.
Proof.
  unfold _check_for_updates, bind, over_files.
  by destruct (fetch_updates (u, w)) as [[[]|e] [u1 w1]].
Qed.

Lemma check_and_apply_updates_unfold now s :
  _check_and_apply_updates now s =
  match _check_for_updates s with
  | (Return true, (u', w')) =>
      (Return VNone,
       (set_last_update_time (Some now) u', logged Reset (logged (Sleep 1) w')))
  | (Return false, s') => (Return (VBool false), s')
  | (Raise e, s') => (Raise e, s')
  end.
Proof.
  unfold _check_and_apply_updates, bind, set_self, on_device, sleep, machine_reset,
    emit, modify, ret.
  destruct (_check_for_updates s) as [[[]|e] [u' w']]; reflexivity.
Qed.

Lemma updated_unfold force now u w :
  updated force now (u, w) =
  if runs_pass force now u then _check_and_apply_updates now (u, w)
  else (Return (VBool false), (u, w)).
Proof.
  unfold updated, runs_pass, bind, self, gets, ret. destruct force; [reflexivity|].
  simpl. destruct (update_interval_seconds u) as [seconds|]; simpl; [|reflexivity].
  destruct (last_update_time u) as [last|]; simpl; [|reflexivity].
  by destruct (seconds <=? now - last)%Z.
Qed.

(** Whatever the arguments and the state, [updated] does not hand back
    [True]. *)
Lemma updated_never_true force now s :
  fst (updated force now s) ≠ Return (VBool true).
Proof.
  destruct s as [u w]. rewrite updated_unfold.
  destruct (runs_pass force now u); [|simpl; congruence].
  rewrite check_and_apply_updates_unfold.
  destruct (_check_for_updates (u, w)) as [[[]|e] [u' w']]; simpl; congruence.
Qed.
End Orchestrator.

(** ** Exceptions inside the fetch loop *)


Section LowMemory.
Context `{Platform}.
Import OTAFileMetadata.

End LowMemory.

(** ** File names *)

Lemma length_append (a b : string) :
  String.length (a ++ b) = String.length a + String.length b.
Proof. induction a as [|c a IH]; [done | rewrite append_cons; simpl; by rewrite IH]. Qed.

Lemma latest_not_backup a b :
  OTAFileMetadata.LATEST_FILE_PREFIX ++ a ≠ OTAFileMetadata.BACKUP_FILE_PREFIX ++ b.
Proof. intros E. cbv in E. discriminate. Qed.


Lemma latest_not_self a : OTAFileMetadata.LATEST_FILE_PREFIX ++ a ≠ a.
Proof.
  intros E. apply (f_equal String.length) in E.
  rewrite length_append in E. simpl in E. lia.
Qed.


(** ** What one fetch and one promotion change *)

Ltac fetch_cases Hrun :=
  rewrite update_latest_unfold in Hrun; cbv zeta in Hrun;
  repeat case_match; simplify_eq.

Ltac promote_cases Hrun :=
  rewrite set_current_to_latest_unfold in Hrun; cbv zeta in Hrun;
  repeat case_match; simplify_eq.

Section Facts.
Context `{Platform}.
Import OTAFileMetadata.

Lemma update_latest_fields m w r m' w' :
  update_latest (m, w) = (r, (m', w')) ->
  filename m' = filename m /\ url m' = url m /\ save_backups m' = save_backups m
  /\ current m' = current m /\ db_file w' = db_file w.
Proof. intros Hrun. fetch_cases Hrun; done. Qed.

(** Only the staged and the quarantine name of the file can change. *)
Lemma update_latest_frame m w r m' w' q :
  update_latest (m, w) = (r, (m', w')) ->
  q ≠ staged_path m -> q ≠ ERROR_FILE_PREFIX ++ filename m ->
  fs w' !! q = fs w !! q.
Proof.
  intros Hrun Hq1 Hq2. fetch_cases Hrun; simpl; try done.
  - by rewrite lookup_insert_ne.
  - rewrite lookup_insert_ne, lookup_delete_ne, lookup_insert_ne; done.
Qed.


Lemma backed_up_frame m (files : gmap string string) q :
  q ≠ filename m -> q ≠ BACKUP_FILE_PREFIX ++ filename m ->
  backed_up m files !! q = files !! q.
Proof.
  intros Hq1 Hq2. unfold backed_up.
  destruct (save_backups m); [|done].
  destruct (files !! filename m); [|done].
  by rewrite lookup_insert_ne, lookup_delete_ne.
Qed.

Lemma backed_up_staged m (files : gmap string string) :
  backed_up m files !! staged_path m = files !! staged_path m.
Proof. apply backed_up_frame; [apply latest_not_self | apply latest_not_backup]. Qed.

Lemma set_current_to_latest_fields m w r m' w' :
  set_current_to_latest (m, w) = (r, (m', w')) ->
  filename m' = filename m /\ url m' = url m /\ save_backups m' = save_backups m
  /\ latest m' = latest m /\ latest_file m' = latest_file m
  /\ db_file w' = db_file w /\ log w' = log w /\ requests w' = requests w
  /\ gc_runs w' = gc_runs w
  /\ match r with
     | Return _ => current m' = latest m
     | Raise e => m' = m /\ (e = TypeError \/ e = OSError)
     end.
Proof. intros Hrun. promote_cases Hrun; simpl; auto 12. Qed.



End Facts.

(** ** Invariants of the loops *)


Section Invariant.
Context `{Platform}.
Import OTAFileMetadata.






End Invariant.

(** ** Construction *)




Section Construction.
Context `{Platform}.
Import OTAFileMetadata.

Lemma metadata_init_unfold user token repo name backups w :
  __init__ user token repo name backups w =
  match update_latest
          (Make name (contents_url repo name) backups None None
             (Some (calculate_github_sha (fs w) name)) ("token " ++ token, user), w) with
  | (Return _, (m', w')) => (Return m', w')
  | (Raise e, (_, w')) => (Raise e, w')
  end.
Proof. reflexivity. Qed.

Lemma updater_init_unfold user token repo_dct interval on_init backups now w :
  OTAUpdater.__init__ user token repo_dct interval on_init backups now w =
  match OTAUpdater.make_repos user token repo_dct backups w with
  | (Return files, w1) =>
      match OTADatabase.__init__ files w1 with
      | (Return _, w2) =>
          let u := OTAUpdater.Make files backups interval
                     (option_map (fun minutes => minutes * 60)%Z interval) None in
          if on_init then
            match OTAUpdater.updated true now (u, w2) with
            | (Return _, (u', w')) => (Return u', w')
            | (Raise e, (_, w')) => (Raise e, w')
            end
          else (Return u, w2)
      | (Raise e, w2) => (Raise e, w2)
      end
  | (Raise e, w1) => (Raise e, w1)
  end.
Proof.
  unfold OTAUpdater.__init__, bind, ret.
  destruct (OTAUpdater.make_repos user token repo_dct backups w) as [[files|e] w1];
    [|reflexivity].
  destruct (OTADatabase.__init__ files w1) as [[[]|e] w2]; [|reflexivity].
  by destruct on_init.
Qed.




End Construction.

(** ** Promotion from a state of the invariant *)

Section Promotion.
Context `{Platform}.
Import OTAFileMetadata.


Lemma promotion_without_staged_copy m w :
  latest_file m = None ->
  set_current_to_latest (m, w) = (Raise TypeError, (m, with_fs (backed_up m (fs w)) w)).
Proof. intros Hnone. rewrite set_current_to_latest_unfold. cbv zeta. by rewrite Hnone. Qed.

End Promotion.

(** ** Requests made and copies staged by a fetch *)


Section Fetching.
Context `{Platform}.
Import OTAFileMetadata.






End Fetching.

(** ** A remote fingerprint equal to the local one *)

Section SameFingerprint.
Context `{Platform}.
Import OTAFileMetadata.

Lemma update_latest_same_fingerprint m w sha content r m' w' :
  remote (requests w) (url m) = Json (Some sha) content ->
  current m = Some sha ->
  update_latest (m, w) = (r, (m', w')) ->
  fs w' = fs w /\ db_file w' = db_file w /\ latest_file m' = latest_file m
  /\ current m' = current m /\ url m' = url m
  /\ ((r = Return tt /\ new_version_available m' = false) \/ r = Raise OTANoMemory)
  /\ ((forall n, (OTA_MINIMUM_MEMORY <= mem_free n)%Z) -> r = Return tt).
Proof.
  intros Hremote Hcur Hrun.
  assert (Hsame : new_version_available (set_latest (Some sha) m) = false).
  { unfold new_version_available. simpl. rewrite Hcur.
    apply bool_decide_eq_false_2. intros Hne. by apply Hne. }
  rewrite update_latest_unfold, Hremote in Hrun. cbv zeta in Hrun. rewrite Hsame in Hrun.
  destruct (mem_free (gc_runs w) <? OTA_MINIMUM_MEMORY)%Z eqn:Hm1.
  { simplify_eq. repeat split; auto.
    intros Hmem. apply Z.ltb_lt in Hm1. specialize (Hmem (gc_runs w)). lia. }
  destruct (mem_free (S (gc_runs w)) <? OTA_MINIMUM_MEMORY)%Z eqn:Hm2.
  { simplify_eq. repeat split; auto.
    intros Hmem. apply Z.ltb_lt in Hm2. specialize (Hmem (S (gc_runs w))). lia. }
  simplify_eq. repeat split; auto.
Qed.


Lemma fetch_loop_same_fingerprints files w r files' w' :
  (forall n m, m ∈ files ->
     exists sha content, remote n (url m) = Json (Some sha) content
                         /\ current m = Some sha) ->
  for_each_acc (fun _ => update_latest) tt files w = (r, (files', w')) ->
  fs w' = fs w /\ db_file w' = db_file w
  /\ map current files' = map current files
  /\ ((r = Return tt /\ Forall (fun m' => new_version_available m' = false) files')
      \/ r = Raise OTANoMemory)
  /\ ((forall n, (OTA_MINIMUM_MEMORY <= mem_free n)%Z) -> r = Return tt).
Proof.
  revert w r files' w'. induction files as [|m files IH]; intros w r files' w' Hsame Hrun.
  - simpl in Hrun. simplify_eq. repeat split; auto.
  - simpl in Hrun.
    destruct (Hsame (requests w) m) as (sha & content & Hremote & Hcur);
      [by apply list_elem_of_here|].
    destruct (update_latest (m, w)) as [r1 [m1 w1]] eqn:Hfetch.
    destruct (update_latest_same_fingerprint _ _ _ _ _ _ _ Hremote Hcur Hfetch)
      as (Hfs & Hdb & _ & Hcur1 & _ & Hr & Hmem).
    destruct r1 as [[]|e].
    + destruct (for_each_acc _ tt files w1) as [r2 [files2 w2]] eqn:Hloop.
      simplify_eq.
      destruct (IH _ _ _ _ (fun n x Hx => Hsame n x (list_elem_of_further _ _ _ Hx)) Hloop)
        as (Hfs2 & Hdb2 & Hcurs & Hr2 & Hmem2).
      repeat split.
      * congruence.
      * congruence.
      * simpl. by rewrite Hcur1, Hcurs.
      * destruct Hr2 as [[-> Hall]| ->]; [left|by right].
        split; [done|]. apply Forall_cons. split; [|done].
        by destruct Hr as [[_ ?]|?].
      * done.
    + simplify_eq. repeat split; try done.
      * simpl. by rewrite Hcur1.
      * right. by destruct Hr as [[? _]|?].
Qed.

Lemma apply_loop_nothing_new flag files w :
  Forall (fun m => new_version_available m = false) files ->
  for_each_acc OTAUpdater.apply_entry flag files w = (Return flag, (files, w)).
Proof.
  revert w. induction files as [|m files IH]; intros w Hall; [done|].
  apply Forall_cons in Hall as [Hm Hrest]. simpl.
  rewrite apply_entry_unfold, Hm. by rewrite IH.
Qed.

Lemma check_for_updates_same_fingerprints u w r u' w' :
  (forall n m, m ∈ OTAUpdater.files_obj u ->
     exists sha content, remote n (url m) = Json (Some sha) content
                         /\ current m = Some sha) ->
  OTAUpdater._check_for_updates (u, w) = (r, (u', w')) ->
  fs w' = fs w /\ db_file w' = db_file w
  /\ map current (OTAUpdater.files_obj u') = map current (OTAUpdater.files_obj u)
  /\ (r = Return false \/ r = Raise OTANoMemory)
  /\ ((forall n, (OTA_MINIMUM_MEMORY <= mem_free n)%Z) -> r = Return false).
Proof.
  intros Hsame. rewrite check_for_updates_unfold, fetch_updates_unfold.
  destruct (for_each_acc _ tt (OTAUpdater.files_obj u) w) as [r1 [files1 w1]] eqn:Hloop.
  destruct (fetch_loop_same_fingerprints _ _ _ _ _ Hsame Hloop)
    as (Hfs & Hdb & Hcurs & Hr & Hmem).
  destruct Hr as [[-> Hall]| ->].
  - simpl. rewrite (apply_loop_nothing_new false _ _ Hall).
    intros Hrun. simplify_eq. simpl. repeat split; auto.
  - intros Hrun. simplify_eq. simpl. repeat split; auto.
    intros Hm. by specialize (Hmem Hm).
Qed.
End SameFingerprint.

(** ** The staged copy and the fingerprint *)

Section RoundTrip.
Context `{Platform}.
Import OTAFileMetadata.

















End RoundTrip.

(** * The statements of the specification *)

(** ** C8: the local fingerprint *)



(** ** C9: updating the persisted container *)

(** C9. On a device that holds a container [data], [update] with the item
    [{name: item}] ends with the container rewritten as [data] with the
    entry of [name] dropped and the new one put in its place (every other
    entry as it was), [delete] having first rewritten the container without
    that entry; the rest of the device is untouched. Without a container,
    [update] raises (AttributeError, from [data.update] on [None]) and
    creates nothing. *)
Theorem database_update_replaces_entry :
  (forall w data name item,
      db_file w = Some data ->
      OTADatabase.update (name, item) w
      = (Return tt, with_db (Some (<[name := item]> (base.delete name data))) w)
      /\ (is_Some (data !! name) ->
          snd (OTADatabase.delete name w)
          = with_db (Some (base.delete name data)) w)
      /\ (<[name := item]> (base.delete name data) : gmap string entry) !! name = Some item
      /\ (forall other, other ≠ name ->
            (<[name := item]> (base.delete name data) : gmap string entry) !! other
            = data !! other))
  /\ (forall w name item,
         db_file w = None ->
         OTADatabase.update (name, item) w = (Raise AttributeError, w)).
Proof.
  split.
  - intros w data name item Hdb. repeat split.
    + rewrite database_update_unfold, Hdb. by rewrite insert_delete_eq.
    + intros Hin. rewrite database_delete_unfold, Hdb.
      by rewrite bool_decide_eq_true_2.
    + apply lookup_insert_eq.
    + intros other Hne. rewrite lookup_insert_ne by done.
      by rewrite lookup_delete_ne.
  - intros w name item Hdb. by rewrite database_update_unfold, Hdb.
Qed.

Lemma database_update_witness :
  OTADatabase.update ("main.py", Entry (Some "h2") (Some "h2"))
    (Device ∅ (Some {[ "main.py" := Entry (Some "h1") (Some "h1") ]}) [] 0 0)
  = (Return tt,
     with_db (Some (<["main.py" := Entry (Some "h2") (Some "h2")]>
                      (base.delete "main.py"
                         {[ "main.py" := Entry (Some "h1") (Some "h1") ]})))
       (Device ∅ (Some {[ "main.py" := Entry (Some "h1") (Some "h1") ]}) [] 0 0))
  /\ OTADatabase.update ("main.py", Entry (Some "h2") (Some "h2")) blank_device
     = (Raise AttributeError, blank_device).
Proof.
  split.
  - apply (proj1 (proj1 database_update_replaces_entry
             (Device ∅ (Some {[ "main.py" := Entry (Some "h1") (Some "h1") ]}) [] 0 0)
             {[ "main.py" := Entry (Some "h1") (Some "h1") ]}
             "main.py" (Entry (Some "h2") (Some "h2")) eq_refl)).
  - apply (proj2 database_update_replaces_entry blank_device "main.py"
             (Entry (Some "h2") (Some "h2")) eq_refl).
Defined.


(** ** C6: the update interval *)

(** C6. With an interval configured, a recorded [last_update_time] and
    less than the interval elapsed since, [updated(force_update=False)]
    hands back [False] and leaves the orchestrator and the whole device
    (files, container, log of requests and output) exactly as they were. *)
Theorem updated_within_interval_is_inert `{Platform} :
  forall (u : OTAUpdater.t) (w : device) (now seconds last : Z),
    OTAUpdater.update_interval_seconds u = Some seconds ->
    OTAUpdater.last_update_time u = Some last ->
    (now - last < seconds)%Z ->
    OTAUpdater.updated false now (u, w) = (Return (VBool false), (u, w)).
Proof.
  intros u w now seconds last Hint Hlast Hlt.
  rewrite updated_unfold. unfold runs_pass. rewrite Hint, Hlast.
  apply Z.leb_gt in Hlt. by rewrite Hlt.
Qed.

Lemma updated_within_interval_witness :
  @OTAUpdater.updated demo_platform false 1000
    (OTAUpdater.Make [fresh_file "main.py" false] false (Some 60%Z) (Some 3600%Z)
       (Some 400%Z), empty_store_device)
  = (Return (VBool false),
     (OTAUpdater.Make [fresh_file "main.py" false] false (Some 60%Z) (Some 3600%Z)
        (Some 400%Z), empty_store_device)).
Proof.
  apply (@updated_within_interval_is_inert demo_platform _ _ 1000%Z 3600%Z 400%Z);
    [reflexivity | reflexivity | lia].
Defined.

(** ** C3: what [updated] hands back *)

(** C3. A forced check with one file to promote: the file is fetched,
    promoted and recorded, [last_update_time] is set, the one-second sleep
    and the reset follow in that order, and the call hands back [None], not
    [True]. *)
Theorem updated_returns_none_after_promotion :
  fst forced_update = Return VNone
  /\ OTAUpdater.last_update_time (fst (snd forced_update)) = Some 5%Z
  /\ fs (snd (snd forced_update)) !! "main.py" = Some "x = 1"
  /\ db_file (snd (snd forced_update))
     = Some {[ "main.py" := Entry (Some "3d2b4b14efe535966493ee555dd7faa81063a251")
                                  (Some "3d2b4b14efe535966493ee555dd7faa81063a251") ]}
  /\ log (snd (snd forced_update))
     = [Get (contents_url "o/r" "main.py"); Sleep 1; Reset].
Proof. vm_compute. repeat split; reflexivity. Qed.

(** ** C2: a download that does not validate *)

(** C2. [bad.py] is listed before [main.py] and its download does not
    compile: [fetch_updates] prints its one message and returns, and
    [main.py] has not been fetched: no request for it was made and its
    object is as it was. *)
Theorem validation_failure_skips_later_files :
  fst rejected_fetch = Return tt
  /\ log (snd (snd rejected_fetch))
     = [Get (contents_url "o/r" "bad.py");
        Print "OTAU: Validation error. Cannot update"]
  /\ OTAUpdater.files_obj (fst (snd rejected_fetch)) !! 1
     = Some (fresh_file "main.py" false)
  /\ fs (snd (snd rejected_fetch)) = {[ "__error__bad.py" := "(" ]}.
Proof. vm_compute. repeat split; reflexivity. Qed.

(** ** C1: low memory during a pass *)



(** ** C4: promotion needs a validated staged copy *)




(** ** C10: construction fetches *)



(** ** C7: a remote fingerprint equal to the local one *)



(** ** C5: the round trip of a promoted file *)





(** * Further properties of the code *)

(** ** OTADatabase: entries *)

Lemma database_create_unfold name item w :
  OTADatabase.create (name, item) w =
  match db_file w with
  | Some data =>
      if bool_decide (is_Some (data !! name)) then (Raise RuntimeError, w)
      else (Return tt, with_db (Some (<[name := item]> data)) w)
  | None => (Return tt, with_db (Some (<[name := item]> ∅)) w)
  end.
Proof.
  unfold OTADatabase.create, OTADatabase.entry_exists, OTADatabase.read,
    OTADatabase.write, OTADatabase.set_db, bind, gets, modify, ret, raise. simpl.
  destruct (db_file w) as [data|] eqn:Hdb; simpl; rewrite ?Hdb; [|reflexivity].
  destruct (bool_decide (is_Some (data !! name))); simpl; rewrite ?Hdb; reflexivity.
Qed.

Lemma database_get_entry_unfold name w :
  OTADatabase.get_entry name w
  = (Return (match db_file w with Some data => data !! name | None => None end), w).
Proof.
  unfold OTADatabase.get_entry, OTADatabase.read, bind, gets, ret. simpl.
  by destruct (db_file w).
Qed.

Lemma database_entry_exists_unfold name w :
  OTADatabase.entry_exists name w
  = (Return (match db_file w with
             | Some data => bool_decide (is_Some (data !! name))
             | None => false
             end), w).
Proof.
  unfold OTADatabase.entry_exists, OTADatabase.read, bind, gets, ret. simpl.
  by destruct (db_file w).
Qed.

(** X1. [create] adds the entry of a name the container does not hold,
    making the container when there is none, and keeps every other entry;
    for a name the container holds it raises RuntimeError and leaves the
    device as it was. *)
Theorem database_create_adds_or_rejects :
  (forall w name item,
      (forall data, db_file w = Some data -> data !! name = None) ->
      exists data',
        OTADatabase.create (name, item) w = (Return tt, with_db (Some data') w)
        /\ data' !! name = Some item
        /\ forall other, other ≠ name ->
             data' !! other = default ∅ (db_file w) !! other)
  /\ (forall w data name old item,
         db_file w = Some data -> data !! name = Some old ->
         OTADatabase.create (name, item) w = (Raise RuntimeError, w)).
Proof.
  split.
  - intros w name item Hfree. rewrite database_create_unfold.
    destruct (db_file w) as [data|] eqn:Hdb; simpl.
    + rewrite bool_decide_eq_false_2
        by (rewrite (Hfree data eq_refl); intros [? ?]; discriminate).
      eexists. split; [reflexivity|]. split; [apply lookup_insert_eq|].
      intros other Hne. by rewrite lookup_insert_ne.
    + eexists. split; [reflexivity|]. split; [apply lookup_insert_eq|].
      intros other Hne. by rewrite lookup_insert_ne.
  - intros w data name old item Hdb Hold. rewrite database_create_unfold, Hdb.
    by rewrite bool_decide_eq_true_2 by eauto.
Qed.

Lemma database_create_witness :
  OTADatabase.create ("main.py", Entry None (Some "")) installed_device
  = (Raise RuntimeError, installed_device).
Proof.
  apply (proj2 database_create_adds_or_rejects installed_device
           {[ "main.py" := Entry (Some "3d2b4b14efe535966493ee555dd7faa81063a251")
                                 (Some "3d2b4b14efe535966493ee555dd7faa81063a251") ]}
           "main.py"
           (Entry (Some "3d2b4b14efe535966493ee555dd7faa81063a251")
                  (Some "3d2b4b14efe535966493ee555dd7faa81063a251"))
           (Entry None (Some ""))); reflexivity.
Defined.

(** X2. What is written is what is read: after a [create] or an [update]
    that returns, [get_entry] of that name gives the item written and
    [entry_exists] says [True]. *)
Theorem database_reads_back_what_was_written :
  forall w name item w',
    OTADatabase.create (name, item) w = (Return tt, w')
    \/ OTADatabase.update (name, item) w = (Return tt, w') ->
    OTADatabase.get_entry name w' = (Return (Some item), w')
    /\ OTADatabase.entry_exists name w' = (Return true, w').
Proof.
  intros w name item w' Hwrite.
  assert (Hdb : exists data, db_file w' = Some data /\ data !! name = Some item).
  { destruct Hwrite as [Hrun|Hrun].
    - rewrite database_create_unfold in Hrun.
      destruct (db_file w) as [data|]; [destruct (bool_decide _)|]; simplify_eq;
        eexists; (split; [reflexivity | apply lookup_insert_eq]).
    - rewrite database_update_unfold in Hrun.
      destruct (db_file w) as [data|]; simplify_eq.
      eexists. split; [reflexivity | apply lookup_insert_eq]. }
  destruct Hdb as (data & Hdb & Hitem).
  rewrite database_get_entry_unfold, database_entry_exists_unfold, Hdb, Hitem.
  split; [done|]. by rewrite bool_decide_eq_true_2 by eauto.
Qed.

Lemma database_reads_back_witness :
  OTADatabase.get_entry "lib.py"
    (with_db (Some (<["lib.py" := Entry None (Some "")]> ∅)) blank_device)
  = (Return (Some (Entry None (Some ""))),
     with_db (Some (<["lib.py" := Entry None (Some "")]> ∅)) blank_device)
  /\ OTADatabase.entry_exists "lib.py"
       (with_db (Some (<["lib.py" := Entry None (Some "")]> ∅)) blank_device)
     = (Return true,
        with_db (Some (<["lib.py" := Entry None (Some "")]> ∅)) blank_device).
Proof.
  apply (database_reads_back_what_was_written blank_device "lib.py"
           (Entry None (Some ""))).
  left. reflexivity.
Defined.



(** ** OTADatabase: start-up *)

Lemma database_sync_step (m : OTAFileMetadata.t) (data : gmap string entry) w :
  db_file w = Some data ->
  exists w',
    (let* known := OTADatabase.entry_exists (OTAFileMetadata.get_filename m) in
     if negb known then OTADatabase.create (OTAFileMetadata.to_json m) else ret tt) w
    = (Return tt, w')
    /\ only_db_differs w w'
    /\ db_file w' = Some (data ∪ {[ OTAFileMetadata.filename m
                                    := Entry (OTAFileMetadata.latest m)
                                             (OTAFileMetadata.current m) ]}).
Proof.
  intros Hdb. unfold bind. rewrite database_entry_exists_unfold, Hdb.
  unfold OTAFileMetadata.get_filename, OTAFileMetadata.to_json.
  destruct (data !! OTAFileMetadata.filename m) as [old|] eqn:Hold.
  - rewrite bool_decide_eq_true_2 by eauto. simpl. exists w.
    split; [done|]. split; [done|]. rewrite Hdb. f_equal.
    apply map_eq. intros k. rewrite lookup_union.
    destruct (decide (k = OTAFileMetadata.filename m)) as [->|Hne].
    + by rewrite Hold, lookup_singleton_eq.
    + rewrite lookup_singleton_ne by done. by destruct (data !! k).
  - rewrite bool_decide_eq_false_2 by (intros [? ?]; discriminate). simpl.
    rewrite database_create_unfold, Hdb, Hold.
    rewrite bool_decide_eq_false_2 by (intros [? ?]; discriminate).
    eexists. split; [reflexivity|]. split; [done|]. simpl. f_equal.
    apply map_eq. intros k. rewrite lookup_union.
    destruct (decide (k = OTAFileMetadata.filename m)) as [->|Hne].
    + by rewrite lookup_insert_eq, Hold, lookup_singleton_eq.
    + rewrite lookup_insert_ne, lookup_singleton_ne by done. by destruct (data !! k).
Qed.

Lemma iter_cons {S A} (body : A -> M S unit) x xs s :
  iter body (x :: xs) s =
  match body x s with
  | (Return _, s') => iter body xs s'
  | (Raise e, s') => (Raise e, s')
  end.
Proof. reflexivity. Qed.

Lemma only_db_differs_trans w1 w2 w3 :
  only_db_differs w1 w2 -> only_db_differs w2 w3 -> only_db_differs w1 w3.
Proof. intros (?&?&?&?) (?&?&?&?). repeat split; congruence. Qed.

Lemma database_init_present :
  forall files w (data : gmap string entry),
    db_file w = Some data ->
    exists w',
      OTADatabase.__init__ files w = (Return tt, w')
      /\ only_db_differs w w'
      /\ db_file w' = Some (data ∪ list_to_map (OTAFileMetadata.to_json <$> files)).
Proof.
  intros files w data Hdb.
  unfold OTADatabase.__init__, bind, OTADatabase.db_file_exists, gets. simpl.
  rewrite Hdb, bool_decide_eq_true_2 by eauto.
  revert w data Hdb. induction files as [|m files IH]; intros w data Hdb.
  - exists w. simpl. unfold ret. split; [done|]. split; [done|].
    by rewrite Hdb, (right_id_L ∅ (∪)).
  - rewrite iter_cons.
    destruct (database_sync_step m data w Hdb) as (w1 & Hstep & Hsame1 & Hdb1).
    cbv beta. unfold bind in Hstep. rewrite Hstep.
    destruct (IH w1 _ Hdb1) as (w2 & Hrest & Hsame2 & Hdb2).
    exists w2. split; [exact Hrest|]. split; [by eapply only_db_differs_trans|].
    rewrite Hdb2. f_equal. unfold OTAFileMetadata.to_json at 2. simpl.
    rewrite <- (assoc_L (∪)). f_equal.
    by rewrite insert_union_singleton_l.
Qed.



Lemma database_create_all files w (data : gmap string entry) :
  db_file w = Some data ->
  NoDup (OTAFileMetadata.filename <$> files) ->
  (forall m, m ∈ files -> data !! OTAFileMetadata.filename m = None) ->
  exists w',
    iter (fun e => OTADatabase.create (OTAFileMetadata.to_json e)) files w
    = (Return tt, w')
    /\ only_db_differs w w'
    /\ db_file w' = Some (data ∪ list_to_map (OTAFileMetadata.to_json <$> files)).
Proof.
  revert w data. induction files as [|m files IH]; intros w data Hdb Hdup Hfree.
  - exists w. split; [done|]. split; [done|]. simpl.
    by rewrite Hdb, (right_id_L ∅ (∪)).
  - rewrite iter_cons. cbv beta. unfold OTAFileMetadata.to_json at 1.
    rewrite database_create_unfold, Hdb, (Hfree m) by apply list_elem_of_here.
    rewrite bool_decide_eq_false_2 by (intros [? ?]; discriminate).
    rewrite fmap_cons in Hdup. apply NoDup_cons in Hdup as [Hnotin Hdup].
    destruct (IH (with_db (Some (<[OTAFileMetadata.filename m
                                   := Entry (OTAFileMetadata.latest m)
                                            (OTAFileMetadata.current m)]> data)) w)
                 _ eq_refl Hdup) as (w2 & Hrest & Hsame & Hdb2).
    { intros x Hx. rewrite lookup_insert_ne.
      - by apply Hfree, list_elem_of_further.
      - intros Heq. apply Hnotin. rewrite Heq. by apply list_elem_of_fmap_2. }
    exists w2. split; [exact Hrest|]. split.
    + eapply only_db_differs_trans; [|exact Hsame]. done.
    + rewrite Hdb2. f_equal. unfold OTAFileMetadata.to_json at 2. simpl.
      rewrite <- insert_union_l. apply insert_union_r.
      by apply Hfree, list_elem_of_here.
Qed.

(** X5. On a device without a container, [OTADatabase(...)] over files of
    distinct names returns, touches nothing but the container, and leaves a
    container holding exactly the entry of each listed file; with no file
    listed, no container is created. *)
Theorem database_init_creates_container :
  forall files w,
    db_file w = None ->
    NoDup (OTAFileMetadata.filename <$> files) ->
    exists w',
      OTADatabase.__init__ files w = (Return tt, w')
      /\ only_db_differs w w'
      /\ db_file w' = match files with
                      | [] => None
                      | _ => Some (list_to_map (OTAFileMetadata.to_json <$> files))
                      end.
Proof.
  intros files w Hdb Hdup.
  unfold OTADatabase.__init__, bind, OTADatabase.db_file_exists, gets. simpl.
  rewrite Hdb, bool_decide_eq_false_2 by (intros [? ?]; discriminate).
  destruct files as [|m files]; [by exists w|].
  rewrite iter_cons. cbv beta. unfold OTAFileMetadata.to_json at 1.
  rewrite database_create_unfold, Hdb.
  rewrite fmap_cons in Hdup. apply NoDup_cons in Hdup as [Hnotin Hdup].
  destruct (database_create_all files
              (with_db (Some (<[OTAFileMetadata.filename m
                                := Entry (OTAFileMetadata.latest m)
                                         (OTAFileMetadata.current m)]> ∅)) w)
              _ eq_refl Hdup) as (w2 & Hrest & Hsame & Hdb2).
  { intros x Hx. rewrite lookup_insert_ne; [done|].
    intros Heq. apply Hnotin. rewrite Heq. by apply list_elem_of_fmap_2. }
  exists w2. split; [exact Hrest|]. split.
  - eapply only_db_differs_trans; [|exact Hsame]. done.
  - rewrite Hdb2. f_equal. unfold OTAFileMetadata.to_json at 2. simpl.
    by rewrite <- insert_union_l, (left_id_L ∅ (∪)).
Qed.

Lemma database_init_creates_witness :
  exists w',
    OTADatabase.__init__ [staged_main; fresh_file "lib.py" false] blank_device
    = (Return tt, w')
    /\ only_db_differs blank_device w'
    /\ db_file w'
       = Some (list_to_map (OTAFileMetadata.to_json
                              <$> [staged_main; fresh_file "lib.py" false])).
Proof.
  apply (database_init_creates_container
           [staged_main; fresh_file "lib.py" false] blank_device).
  - reflexivity.
  - vm_compute. apply NoDup_cons. split.
    + intros Hin. apply list_elem_of_singleton in Hin. discriminate Hin.
    + apply NoDup_singleton.
Defined.

Lemma database_create_all_rejects pre m post w :
  OTAFileMetadata.filename m ∈ OTAFileMetadata.filename <$> pre
  \/ (exists data : gmap string entry,
         db_file w = Some data /\ is_Some (data !! OTAFileMetadata.filename m)) ->
  exists w',
    iter (fun e => OTADatabase.create (OTAFileMetadata.to_json e)) (pre ++ m :: post) w
    = (Raise RuntimeError, w').
Proof.
  revert w. induction pre as [|p pre IH]; intros w Hclash.
  - destruct Hclash as [Hin | (data & Hdb & Hsome)];
      [by apply elem_of_nil in Hin|].
    rewrite app_nil_l, iter_cons. cbv beta. unfold OTAFileMetadata.to_json.
    rewrite database_create_unfold, Hdb, bool_decide_eq_true_2 by done. eauto.
  - rewrite <- app_comm_cons, iter_cons. cbv beta.
    unfold OTAFileMetadata.to_json at 1.
    rewrite database_create_unfold.
    assert (Hnext : forall data0 : gmap string entry,
               (db_file w = Some data0 \/ (db_file w = None /\ data0 = ∅)) ->
               exists w',
                 iter (fun e => OTADatabase.create (OTAFileMetadata.to_json e))
                   (pre ++ m :: post)
                   (with_db (Some (<[OTAFileMetadata.filename p
                                     := Entry (OTAFileMetadata.latest p)
                                              (OTAFileMetadata.current p)]> data0)) w)
                 = (Raise RuntimeError, w')).
    { intros data0 Hdata0. apply IH.
      destruct Hclash as [Hin | (data & Hdb & Hsome)].
      - rewrite fmap_cons in Hin. apply elem_of_cons in Hin as [Heq | Hin]; [|by left].
        right. eexists. split; [reflexivity|]. rewrite Heq, lookup_insert_eq. eauto.
      - right. eexists. split; [reflexivity|].
        destruct (decide (OTAFileMetadata.filename p = OTAFileMetadata.filename m))
          as [Heq|Hne].
        + rewrite Heq, lookup_insert_eq. eauto.
        + rewrite lookup_insert_ne by done.
          destruct Hdata0 as [Hd | [Hd _]]; congruence. }
    destruct (db_file w) as [data0|] eqn:Hdb0.
    + destruct (bool_decide (is_Some (data0 !! OTAFileMetadata.filename p))); [eauto|].
      apply Hnext. by left.
    + apply Hnext. by right.
Qed.

(** X6. On a device without a container, [OTADatabase(...)] over a list in
    which a file name comes twice raises RuntimeError: the second [create]
    of that name finds the entry the first one wrote. *)
Theorem database_init_rejects_repeated_name :
  forall pre m post w,
    db_file w = None ->
    OTAFileMetadata.filename m ∈ OTAFileMetadata.filename <$> pre ->
    fst (OTADatabase.__init__ (pre ++ m :: post) w) = Raise RuntimeError.
Proof.
  intros pre m post w Hdb Hin.
  unfold OTADatabase.__init__, bind, OTADatabase.db_file_exists, gets. simpl.
  rewrite Hdb, bool_decide_eq_false_2 by (intros [? ?]; discriminate).
  destruct (database_create_all_rejects pre m post w (or_introl Hin)) as (w' & Hrun).
  by rewrite Hrun.
Qed.

Lemma database_init_rejects_witness :
  fst (OTADatabase.__init__
         ([fresh_file "main.py" false] ++ fresh_file "main.py" true :: [])
         blank_device)
  = Raise RuntimeError.
Proof.
  apply (database_init_rejects_repeated_name
           [fresh_file "main.py" false] (fresh_file "main.py" true) [] blank_device).
  - reflexivity.
  - vm_compute. apply list_elem_of_here.
Defined.

(** ** calculate_github_sha *)

Lemma be_bytes_length count x : length (Sha1.be_bytes count x) = count.
Proof. unfold Sha1.be_bytes. by rewrite length_map, length_rev, length_seq. Qed.

Lemma digest_length msg : length (Sha1.digest msg) = 20.
Proof.
  unfold Sha1.digest. cbv zeta. by rewrite !length_app, !be_bytes_length.
Qed.

Lemma hexlify_length bs : String.length (hexlify bs) = 2 * length bs.
Proof.
  induction bs as [|b bs IH]; [done|].
  change (hexlify (b :: bs)) with (hex02 b ++ hexlify bs).
  rewrite length_append, IH. simpl. lia.
Qed.

(** X7. For a file that exists, [calculate_github_sha] is a string of forty
    characters, so the empty string it gives for a missing file is never
    the fingerprint of a file: the result is empty exactly when the file
    does not exist. *)
Theorem calculate_github_sha_empty_iff_missing :
  forall (files : gmap string string) name,
    (is_Some (files !! name) ->
     String.length (calculate_github_sha files name) = 40)
    /\ (calculate_github_sha files name = "" <-> files !! name = None).
Proof.
  intros files name.
  assert (Hlen : is_Some (files !! name) ->
                 String.length (calculate_github_sha files name) = 40).
  { intros [c Hc]. unfold calculate_github_sha, github_sha. rewrite Hc.
    by rewrite hexlify_length, digest_length. }
  split; [exact Hlen|]. split.
  - intros Hempty. destruct (files !! name) as [c|] eqn:Hc; [|done].
    specialize (Hlen (ltac:(eauto))). rewrite Hempty in Hlen. discriminate.
  - intros Hnone. unfold calculate_github_sha. by rewrite Hnone.
Qed.

Lemma calculate_github_sha_empty_witness :
  String.length (calculate_github_sha {[ "empty.py" := "" ]} "empty.py") = 40.
Proof.
  apply (proj1 (calculate_github_sha_empty_iff_missing {[ "empty.py" := "" ]} "empty.py")).
  exists "". reflexivity.
Defined.

(** X8. The read loop of [calculate_github_sha] gathers the whole content
    of the file, whatever the (positive) chunk size and however many
    reads it takes. *)
Theorem read_loop_gathers_whole_file :
  forall chunk_size content,
    0 < chunk_size ->
    read_chunks (S (String.length content)) chunk_size content "" = content.
Proof.
  intros chunk_size content Hpos. destruct chunk_size as [|size]; [lia|].
  rewrite read_chunks_all; [done | lia].
Qed.

Lemma read_loop_witness :
  read_chunks (S (String.length "import os")) 4 "import os" "" = "import os".
Proof. apply (read_loop_gathers_whole_file 4 "import os"). lia. Defined.

(** ** OTAFileMetadata.update_latest *)

Lemma error_not_self a : OTAFileMetadata.ERROR_FILE_PREFIX ++ a ≠ a.
Proof.
  intros E. apply (f_equal String.length) in E.
  rewrite length_append in E. simpl in E. lia.
Qed.

Lemma backup_not_self a : OTAFileMetadata.BACKUP_FILE_PREFIX ++ a ≠ a.
Proof.
  intros E. apply (f_equal String.length) in E.
  rewrite length_append in E. simpl in E. lia.
Qed.

Lemma backup_not_error a b :
  OTAFileMetadata.BACKUP_FILE_PREFIX ++ a ≠ OTAFileMetadata.ERROR_FILE_PREFIX ++ b.
Proof. intros E. cbv in E. discriminate. Qed.

(** X9. Whatever the reply and whatever the outcome, [update_latest] leaves
    alone the live file, the backup of the file, the current fingerprint,
    the name and URL of the object and the persisted container. *)
Theorem update_latest_leaves_live_file `{Platform} :
  forall m w,
    let r := OTAFileMetadata.update_latest (m, w) in
    fs (snd (snd r)) !! OTAFileMetadata.filename m = fs w !! OTAFileMetadata.filename m
    /\ fs (snd (snd r)) !! (OTAFileMetadata.BACKUP_FILE_PREFIX ++ OTAFileMetadata.filename m)
       = fs w !! (OTAFileMetadata.BACKUP_FILE_PREFIX ++ OTAFileMetadata.filename m)
    /\ OTAFileMetadata.current (fst (snd r)) = OTAFileMetadata.current m
    /\ OTAFileMetadata.filename (fst (snd r)) = OTAFileMetadata.filename m
    /\ OTAFileMetadata.url (fst (snd r)) = OTAFileMetadata.url m
    /\ db_file (snd (snd r)) = db_file w.
Proof.
  intros m w r. subst r.
  destruct (OTAFileMetadata.update_latest (m, w)) as [r [m' w']] eqn:Hrun. simpl.
  destruct (update_latest_fields _ _ _ _ _ Hrun) as (Hname & Hurl & _ & Hcur & Hdb).
  repeat split; try done.
  - eapply update_latest_frame; [exact Hrun | | ].
    + apply not_eq_sym, latest_not_self.
    + apply not_eq_sym, error_not_self.
  - eapply update_latest_frame; [exact Hrun | | ].
    + apply not_eq_sym, latest_not_backup.
    + apply backup_not_error.
Qed.





(** X12. A reply that is not JSON, or that is JSON without a 'sha': with
    free memory at or above the floor, [update_latest] returns and leaves
    the object, the files and the container as they were. A request that
    fails with OSError is not handled: OSError is raised to the caller. *)
Theorem update_latest_on_unusable_reply `{Platform} :
  (forall m w,
      (forall n, (OTAFileMetadata.OTA_MINIMUM_MEMORY <= mem_free n)%Z) ->
      remote (requests w) (OTAFileMetadata.url m) = JsonError
      \/ (exists content, remote (requests w) (OTAFileMetadata.url m) = Json None content) ->
      exists w',
        OTAFileMetadata.update_latest (m, w) = (Return tt, (m, w'))
        /\ fs w' = fs w /\ db_file w' = db_file w)
  /\ (forall m w,
         (forall n, (OTAFileMetadata.OTA_MINIMUM_MEMORY <= mem_free n)%Z) ->
         remote (requests w) (OTAFileMetadata.url m) = NetworkError ->
         exists w',
           OTAFileMetadata.update_latest (m, w) = (Raise OSError, (m, w'))
           /\ fs w' = fs w /\ db_file w' = db_file w).
Proof.
  split.
  - intros m w Hmem Hreply. rewrite update_latest_unfold. cbv zeta.
    pose proof (Hmem (gc_runs w)) as Hm1. pose proof (Hmem (S (gc_runs w))) as Hm2.
    apply Z.ltb_ge in Hm1, Hm2. rewrite Hm1.
    destruct Hreply as [-> | [content ->]].
    + eexists. split; [reflexivity|]. done.
    + rewrite Hm2. eexists. split; [reflexivity|]. done.
  - intros m w Hmem Hreply. rewrite update_latest_unfold. cbv zeta.
    pose proof (Hmem (gc_runs w)) as Hm1. apply Z.ltb_ge in Hm1.
    rewrite Hm1, Hreply. eexists. split; [reflexivity|]. done.
Qed.

Lemma update_latest_on_unusable_reply_witness :
  (exists w',
      @OTAFileMetadata.update_latest demo_platform (fresh_file "lib.py" false, blank_device)
      = (Return tt, (fresh_file "lib.py" false, w'))
      /\ fs w' = fs blank_device /\ db_file w' = db_file blank_device)
  /\ (exists w',
         @OTAFileMetadata.update_latest offline_platform
           (fresh_file "main.py" false, blank_device)
         = (Raise OSError, (fresh_file "main.py" false, w'))
         /\ fs w' = fs blank_device /\ db_file w' = db_file blank_device).
Proof.
  split.
  - apply (proj1 (@update_latest_on_unusable_reply demo_platform)
             (fresh_file "lib.py" false) blank_device).
    + intros n. vm_compute. discriminate.
    + right. exists None. reflexivity.
  - apply (proj2 (@update_latest_on_unusable_reply offline_platform)
             (fresh_file "main.py" false) blank_device).
    + intros n. vm_compute. discriminate.
    + reflexivity.
Defined.

(** ** OTAFileMetadata.set_current_to_latest *)

(** X13. Promotion with backups on, a live file and a staged file: the
    call returns, the live name holds the staged content, [__backup__<name>]
    holds what the live file held (whatever an earlier backup held), the
    staged file is gone, [current] becomes [latest], and no other file
    changes. [latest_file] is left naming the staged path. *)
Theorem promotion_keeps_one_backup :
  forall m w old c,
    OTAFileMetadata.save_backups m = true ->
    fs w !! OTAFileMetadata.filename m = Some old ->
    OTAFileMetadata.latest_file m = Some (staged_path m) ->
    fs w !! staged_path m = Some c ->
    exists w',
      OTAFileMetadata.set_current_to_latest (m, w)
      = (Return tt, (OTAFileMetadata.set_current (OTAFileMetadata.latest m) m, w'))
      /\ fs w' !! OTAFileMetadata.filename m = Some c
      /\ fs w' !! (OTAFileMetadata.BACKUP_FILE_PREFIX ++ OTAFileMetadata.filename m)
         = Some old
      /\ fs w' !! staged_path m = None
      /\ (forall q, q ≠ OTAFileMetadata.filename m ->
            q ≠ OTAFileMetadata.BACKUP_FILE_PREFIX ++ OTAFileMetadata.filename m ->
            q ≠ staged_path m -> fs w' !! q = fs w !! q).
Proof.
  intros m w old c Hbackups Hlive Hstaged Hc.
  rewrite set_current_to_latest_unfold. cbv zeta. rewrite Hstaged, backed_up_staged, Hc.
  eexists. split; [reflexivity|]. simpl.
  assert (Hb : backed_up m (fs w)
               = <[OTAFileMetadata.BACKUP_FILE_PREFIX ++ OTAFileMetadata.filename m := old]>
                   (base.delete (OTAFileMetadata.filename m) (fs w))).
  { unfold backed_up. by rewrite Hbackups, Hlive. }
  repeat split.
  - apply lookup_insert_eq.
  - rewrite lookup_insert_ne by (apply not_eq_sym, backup_not_self).
    rewrite lookup_delete_ne by (apply latest_not_backup).
    rewrite Hb. apply lookup_insert_eq.
  - rewrite lookup_insert_ne by (apply not_eq_sym, latest_not_self).
    apply lookup_delete_eq.
  - intros q Hq1 Hq2 Hq3.
    rewrite lookup_insert_ne, lookup_delete_ne by done.
    by apply backed_up_frame.
Qed.

Lemma promotion_keeps_one_backup_witness :
  exists w',
    OTAFileMetadata.set_current_to_latest (running_main_staged, running_device_staged)
    = (Return tt,
       (OTAFileMetadata.set_current (OTAFileMetadata.latest running_main_staged)
          running_main_staged, w'))
    /\ fs w' !! OTAFileMetadata.filename running_main_staged = Some "x = 1"
    /\ fs w' !! (OTAFileMetadata.BACKUP_FILE_PREFIX
                 ++ OTAFileMetadata.filename running_main_staged) = Some "x = 0"
    /\ fs w' !! staged_path running_main_staged = None
    /\ (forall q, q ≠ OTAFileMetadata.filename running_main_staged ->
          q ≠ OTAFileMetadata.BACKUP_FILE_PREFIX
              ++ OTAFileMetadata.filename running_main_staged ->
          q ≠ staged_path running_main_staged ->
          fs w' !! q = fs running_device_staged !! q).
Proof.
  apply (promotion_keeps_one_backup running_main_staged running_device_staged
           "x = 0" "x = 1"); reflexivity.
Defined.

(** X14. Promotion attempted with backups on and a live file, but with no
    staged reference or with the staged file missing: the call raises
    (TypeError, resp. OSError) after the backup step, so the live name no
    longer exists; its content is under [__backup__<name>], and [current]
    is unchanged. *)
Theorem failed_promotion_moves_live_file_away :
  forall m w old,
    OTAFileMetadata.save_backups m = true ->
    fs w !! OTAFileMetadata.filename m = Some old ->
    OTAFileMetadata.latest_file m = None
    \/ (OTAFileMetadata.latest_file m = Some (staged_path m)
        /\ fs w !! staged_path m = None) ->
    exists e w',
      OTAFileMetadata.set_current_to_latest (m, w) = (Raise e, (m, w'))
      /\ (e = TypeError \/ e = OSError)
      /\ fs w' !! OTAFileMetadata.filename m = None
      /\ fs w' !! (OTAFileMetadata.BACKUP_FILE_PREFIX ++ OTAFileMetadata.filename m)
         = Some old.
Proof.
  intros m w old Hbackups Hlive Hstaged.
  rewrite set_current_to_latest_unfold. cbv zeta.
  assert (Hb : backed_up m (fs w)
               = <[OTAFileMetadata.BACKUP_FILE_PREFIX ++ OTAFileMetadata.filename m := old]>
                   (base.delete (OTAFileMetadata.filename m) (fs w))).
  { unfold backed_up. by rewrite Hbackups, Hlive. }
  assert (Hgone : backed_up m (fs w) !! OTAFileMetadata.filename m = None).
  { rewrite Hb, lookup_insert_ne by apply backup_not_self. apply lookup_delete_eq. }
  assert (Hkept : backed_up m (fs w)
                    !! (OTAFileMetadata.BACKUP_FILE_PREFIX ++ OTAFileMetadata.filename m)
                  = Some old).
  { rewrite Hb. apply lookup_insert_eq. }
  destruct Hstaged as [-> | [-> Hmissing]].
  - exists TypeError. eexists. split; [reflexivity|]. auto.
  - rewrite backed_up_staged, Hmissing.
    exists OSError. eexists. split; [reflexivity|]. auto.
Qed.

Lemma failed_promotion_witness :
  exists e w',
    OTAFileMetadata.set_current_to_latest (running_main, running_device)
    = (Raise e, (running_main, w'))
    /\ (e = TypeError \/ e = OSError)
    /\ fs w' !! OTAFileMetadata.filename running_main = None
    /\ fs w' !! (OTAFileMetadata.BACKUP_FILE_PREFIX
                 ++ OTAFileMetadata.filename running_main) = Some "x = 0".
Proof.
  apply (failed_promotion_moves_live_file_away running_main running_device "x = 0").
  - reflexivity.
  - reflexivity.
  - left. reflexivity.
Defined.

(** ** The pass: files that cannot be promoted *)

Lemma for_each_acc_raises {O W A} (body : A -> M (O * W) A) (P : exn -> Prop) :
  (forall acc o w e s, body acc (o, w) = (Raise e, s) -> P e) ->
  forall objs acc w e s, for_each_acc body acc objs w = (Raise e, s) -> P e.
Proof.
  intros Hbody. induction objs as [|o objs IH]; intros acc w e s Hrun.
  - simpl in Hrun. by simplify_eq.
  - simpl in Hrun. destruct (body acc (o, w)) as [[acc1|e1] [o1 w1]] eqn:Hstep.
    + destruct (for_each_acc body acc1 objs w1) as [r2 [objs2 w2]] eqn:Hloop.
      simplify_eq. by eapply IH.
    + simplify_eq. by eapply Hbody.
Qed.

Lemma apply_entry_raises flag m w e s :
  OTAUpdater.apply_entry flag (m, w) = (Raise e, s) ->
  e = TypeError \/ e = OSError \/ e = AttributeError.
Proof.
  rewrite apply_entry_unfold. intros Hrun.
  destruct (OTAFileMetadata.new_version_available m); [|by simplify_eq].
  destruct (OTAFileMetadata.set_current_to_latest (m, w)) as [r1 [m1 w1]] eqn:Hset.
  destruct (set_current_to_latest_fields _ _ _ _ _ Hset) as (_&_&_&_&_&_&_&_&_&Hr).
  destruct r1 as [[]|e1].
  - unfold OTAFileMetadata.to_json in Hrun. rewrite database_update_unfold in Hrun.
    destruct (db_file w1); simplify_eq. auto.
  - simplify_eq. destruct Hr as [_ [-> | ->]]; auto.
Qed.

Lemma apply_loop_unstaged_raises files flag w m :
  m ∈ files ->
  OTAFileMetadata.new_version_available m = true ->
  OTAFileMetadata.latest_file m = None ->
  exists e s, for_each_acc OTAUpdater.apply_entry flag files w = (Raise e, s).
Proof.
  intros Hin Hnew Hnone. revert flag w.
  induction files as [|x files IH]; intros flag w; [by apply elem_of_nil in Hin|].
  simpl. destruct (OTAUpdater.apply_entry flag (x, w)) as [[flag1|e] [x1 w1]] eqn:Hstep;
    [|eauto].
  apply elem_of_cons in Hin as [<- | Hin].
  - rewrite apply_entry_unfold, Hnew, (promotion_without_staged_copy _ _ Hnone) in Hstep.
    discriminate.
  - destruct (IH Hin flag1 w1) as (e & [files2 w2] & Hloop). rewrite Hloop. eauto.
Qed.

Section StuckFiles.
Context `{Platform}.

Lemma check_for_updates_raises u w e s :
  OTAUpdater.fetch_updates (u, w) = (Return tt, s) ->
  OTAUpdater._check_for_updates (u, w) = (Raise e, snd (OTAUpdater._check_for_updates (u, w))) ->
  e = TypeError \/ e = OSError \/ e = AttributeError.
Proof.
  intros Hfetch. rewrite check_for_updates_unfold, Hfetch. destruct s as [u1 w1].
  destruct (for_each_acc OTAUpdater.apply_entry false (OTAUpdater.files_obj u1) w1)
    as [r2 [files2 w2]] eqn:Hloop.
  simpl. intros Hrun. simplify_eq.
  eapply (for_each_acc_raises _ (fun e => e = TypeError \/ e = OSError \/ e = AttributeError));
    [|exact Hloop].
  intros acc o w0 e0 s0. apply apply_entry_raises.
Qed.

Lemma pass_with_unstaged_pending_raises u w u1 w1 m :
  OTAUpdater.fetch_updates (u, w) = (Return tt, (u1, w1)) ->
  m ∈ OTAUpdater.files_obj u1 ->
  OTAFileMetadata.new_version_available m = true ->
  OTAFileMetadata.latest_file m = None ->
  exists e, fst (OTAUpdater._check_for_updates (u, w)) = Raise e
            /\ (e = TypeError \/ e = OSError \/ e = AttributeError).
Proof.
  intros Hfetch Hin Hnew Hnone.
  destruct (apply_loop_unstaged_raises _ false w1 _ Hin Hnew Hnone) as (e & [f2 w2] & Hloop).
  exists e. split.
  - by rewrite check_for_updates_unfold, Hfetch, Hloop.
  - eapply check_for_updates_raises; [exact Hfetch|].
    rewrite check_for_updates_unfold, Hfetch, Hloop. reflexivity.
Qed.

Lemma fetch_loop_validation_leaves_unstaged files w files1 w1 :
  for_each_acc (fun _ => OTAFileMetadata.update_latest) tt files w
  = (Raise OTANewFileWillNotValidate, (files1, w1)) ->
  exists m, m ∈ files1
            /\ OTAFileMetadata.new_version_available m = true
            /\ OTAFileMetadata.latest_file m = None.
Proof.
  revert w files1 w1. induction files as [|x files IH]; intros w files1 w1 Hrun.
  - simpl in Hrun. by simplify_eq.
  - simpl in Hrun.
    destruct (OTAFileMetadata.update_latest (x, w)) as [[[]|e] [x1 w2]] eqn:Hfetch.
    + destruct (for_each_acc _ tt files w2) as [r3 [files3 w3]] eqn:Hloop.
      simplify_eq. destruct (IH _ _ _ Hloop) as (m & Hin & Hm).
      exists m. split; [by apply list_elem_of_further | done].
    + simplify_eq. exists x1. split; [apply list_elem_of_here|].
      fetch_cases Hfetch. split; [|done].
      match goal with Hn : OTAFileMetadata.new_version_available _ = true |- _ =>
        exact Hn end.
Qed.
End StuckFiles.

(** X15. A pass whose first loop has returned never promotes silently past
    a file that is pending ([current] differs from [latest]) but has no
    staged reference: [_check_for_updates] raises, with TypeError, OSError
    or AttributeError. *)
Theorem pass_raises_on_pending_file_without_staged_copy `{Platform} :
  forall u w u1 w1 m,
    OTAUpdater.fetch_updates (u, w) = (Return tt, (u1, w1)) ->
    m ∈ OTAUpdater.files_obj u1 ->
    OTAFileMetadata.new_version_available m = true ->
    OTAFileMetadata.latest_file m = None ->
    exists e, fst (OTAUpdater._check_for_updates (u, w)) = Raise e
              /\ (e = TypeError \/ e = OSError \/ e = AttributeError).
Proof. intros u w u1 w1 m. apply pass_with_unstaged_pending_raises. Qed.

Lemma pass_raises_on_pending_witness :
  exists e,
    fst (@OTAUpdater._check_for_updates demo_platform
           (updater_of [fresh_file "lib.py" false], empty_store_device)) = Raise e
    /\ (e = TypeError \/ e = OSError \/ e = AttributeError).
Proof.
  apply (@pass_raises_on_pending_file_without_staged_copy demo_platform
           (updater_of [fresh_file "lib.py" false]) empty_store_device
           (updater_of [fresh_file "lib.py" false])
           (snd (snd (@OTAUpdater.fetch_updates demo_platform
                        (updater_of [fresh_file "lib.py" false], empty_store_device))))
           (fresh_file "lib.py" false)).
  - vm_compute. reflexivity.
  - apply list_elem_of_here.
  - reflexivity.
  - reflexivity.
Defined.

(** X16. When a download fails validation in the first loop, the exception
    is caught there, but the pass does not return: the rejected file is
    pending without a staged reference, and [_check_for_updates] raises
    TypeError, OSError or AttributeError from its second loop. *)
Theorem pass_raises_after_validation_failure `{Platform} :
  forall u w files1 w1,
    for_each_acc (fun _ => OTAFileMetadata.update_latest) tt (OTAUpdater.files_obj u) w
    = (Raise OTANewFileWillNotValidate, (files1, w1)) ->
    fst (OTAUpdater.fetch_updates (u, w)) = Return tt
    /\ exists e, fst (OTAUpdater._check_for_updates (u, w)) = Raise e
                 /\ (e = TypeError \/ e = OSError \/ e = AttributeError).
Proof.
  intros u w files1 w1 Hloop.
  assert (Hfetch : OTAUpdater.fetch_updates (u, w)
                   = (Return tt, (OTAUpdater.set_files_obj files1 u,
                                  logged (Print "OTAU: Validation error. Cannot update") w1))).
  { by rewrite fetch_updates_unfold, Hloop. }
  split; [by rewrite Hfetch|].
  destruct (fetch_loop_validation_leaves_unstaged _ _ _ _ Hloop) as (m & Hin & Hnew & Hnone).
  by eapply pass_with_unstaged_pending_raises.
Qed.

Lemma pass_raises_after_validation_failure_witness :
  fst (@OTAUpdater.fetch_updates demo_platform
         (updater_of [fresh_file "bad.py" false; fresh_file "main.py" false],
          empty_store_device)) = Return tt
  /\ exists e,
       fst (@OTAUpdater._check_for_updates demo_platform
              (updater_of [fresh_file "bad.py" false; fresh_file "main.py" false],
               empty_store_device)) = Raise e
       /\ (e = TypeError \/ e = OSError \/ e = AttributeError).
Proof.
  apply (@pass_raises_after_validation_failure demo_platform
           (updater_of [fresh_file "bad.py" false; fresh_file "main.py" false])
           empty_store_device
           (fst (snd (@for_each_acc _ _ _ (fun _ => @OTAFileMetadata.update_latest demo_platform)
                        tt [fresh_file "bad.py" false; fresh_file "main.py" false]
                        empty_store_device)))
           (snd (snd (@for_each_acc _ _ _ (fun _ => @OTAFileMetadata.update_latest demo_platform)
                        tt [fresh_file "bad.py" false; fresh_file "main.py" false]
                        empty_store_device)))).
  vm_compute. reflexivity.
Defined.

Section Unanswered.
Context `{Platform}.

Lemma update_latest_unanswered m w r m' w' :
  remote (requests w) (OTAFileMetadata.url m) = JsonError
  \/ (exists content, remote (requests w) (OTAFileMetadata.url m) = Json None content) ->
  OTAFileMetadata.update_latest (m, w) = (r, (m', w')) ->
  m' = m.
Proof.
  intros Hreply Hrun. rewrite update_latest_unfold in Hrun. cbv zeta in Hrun.
  destruct (mem_free (gc_runs w) <? OTAFileMetadata.OTA_MINIMUM_MEMORY)%Z;
    [by simplify_eq|].
  destruct Hreply as [Hreply | [content Hreply]]; rewrite Hreply in Hrun;
    [by simplify_eq|].
  destruct (mem_free (S (gc_runs w)) <? OTAFileMetadata.OTA_MINIMUM_MEMORY)%Z;
    by simplify_eq.
Qed.

Lemma fetch_loop_keeps_unanswered files w r files' w' m :
  (forall n, remote n (OTAFileMetadata.url m) = JsonError
             \/ exists content, remote n (OTAFileMetadata.url m) = Json None content) ->
  m ∈ files ->
  for_each_acc (fun _ => OTAFileMetadata.update_latest) tt files w = (r, (files', w')) ->
  m ∈ files'.
Proof.
  intros Hreply. revert w r files' w'.
  induction files as [|x files IH]; intros w r files' w' Hin Hrun;
    [by apply elem_of_nil in Hin|].
  simpl in Hrun.
  destruct (OTAFileMetadata.update_latest (x, w)) as [r1 [x1 w1]] eqn:Hfetch.
  apply elem_of_cons in Hin as [<- | Hin].
  - pose proof (update_latest_unanswered _ _ _ _ _ (Hreply (requests w)) Hfetch) as ->.
    destruct r1 as [[]|e]; [|simplify_eq; apply list_elem_of_here].
    destruct (for_each_acc _ tt files w1) as [r2 [files2 w2]].
    simplify_eq. apply list_elem_of_here.
  - destruct r1 as [[]|e]; [|simplify_eq; by apply list_elem_of_further].
    destruct (for_each_acc _ tt files w1) as [r2 [files2 w2]] eqn:Hloop.
    simplify_eq. apply list_elem_of_further. by eapply IH.
Qed.
End Unanswered.

(** X17. A monitored file that has never been fetched ([latest] and
    [latest_file] are [None]) and for which the remote never answers with a
    'sha' makes every pass raise: [_check_for_updates] does not return. *)
Theorem pass_raises_for_file_unknown_to_remote `{Platform} :
  forall u w m,
    m ∈ OTAUpdater.files_obj u ->
    OTAFileMetadata.latest m = None ->
    OTAFileMetadata.latest_file m = None ->
    OTAFileMetadata.current m ≠ None ->
    (forall n, remote n (OTAFileMetadata.url m) = JsonError
               \/ exists content, remote n (OTAFileMetadata.url m) = Json None content) ->
    exists e, fst (OTAUpdater._check_for_updates (u, w)) = Raise e.
Proof.
  intros u w m Hin Hlatest Hstaged Hcur Hreply.
  destruct (OTAUpdater.fetch_updates (u, w)) as [[[]|e] [u1 w1]] eqn:Hfetch.
  - assert (Hin1 : m ∈ OTAUpdater.files_obj u1).
    { rewrite fetch_updates_unfold in Hfetch.
      destruct (for_each_acc _ tt (OTAUpdater.files_obj u) w) as [r1 [files1 w2]] eqn:Hloop.
      pose proof (fetch_loop_keeps_unanswered _ _ _ _ _ _ Hreply Hin Hloop) as Hkept.
      destruct r1 as [[]|e]; [by simplify_eq|].
      destruct e; by simplify_eq. }
    assert (Hnew : OTAFileMetadata.new_version_available m = true).
    { apply bool_decide_eq_true_2. by rewrite Hlatest. }
    destruct (pass_with_unstaged_pending_raises _ _ _ _ _ Hfetch Hin1 Hnew Hstaged)
      as (e & He & _).
    eauto.
  - exists e. by rewrite check_for_updates_unfold, Hfetch.
Qed.

Lemma pass_raises_for_unknown_file_witness :
  exists e,
    fst (@OTAUpdater._check_for_updates demo_platform
           (updater_of [fresh_file "main.py" false; fresh_file "lib.py" false],
            empty_store_device)) = Raise e.
Proof.
  apply (@pass_raises_for_file_unknown_to_remote demo_platform
           (updater_of [fresh_file "main.py" false; fresh_file "lib.py" false])
           empty_store_device (fresh_file "lib.py" false)).
  - apply list_elem_of_further, list_elem_of_here.
  - reflexivity.
  - reflexivity.
  - discriminate.
  - intros n. right. exists None. reflexivity.
Defined.

(** ** The pass: what it returns and what it leaves alone *)

Lemma for_each_acc_world {O W A} (body : A -> M (O * W) A) (Q : W -> W -> Prop) :
  (forall w, Q w w) ->
  (forall w1 w2 w3, Q w1 w2 -> Q w2 w3 -> Q w1 w3) ->
  (forall acc o w r o' w', body acc (o, w) = (r, (o', w')) -> Q w w') ->
  forall objs acc w r objs' w',
    for_each_acc body acc objs w = (r, (objs', w')) -> Q w w'.
Proof.
  intros Hrefl Htrans Hbody. induction objs as [|o objs IH]; intros acc w r objs' w' Hrun.
  - simpl in Hrun. by simplify_eq.
  - simpl in Hrun. destruct (body acc (o, w)) as [[acc1|e] [o1 w1]] eqn:Hstep.
    + destruct (for_each_acc body acc1 objs w1) as [r2 [objs2 w2]] eqn:Hloop.
      simplify_eq. eapply Htrans; [by eapply Hbody | by eapply IH].
    + simplify_eq. by eapply Hbody.
Qed.

Lemma for_each_acc_related {O W A} (body : A -> M (O * W) A) (R : O -> O -> Prop) :
  (forall o, R o o) ->
  (forall acc o w r o' w', body acc (o, w) = (r, (o', w')) -> R o o') ->
  forall objs acc w r objs' w',
    for_each_acc body acc objs w = (r, (objs', w')) -> Forall2 R objs objs'.
Proof.
  intros Hrefl Hbody. induction objs as [|o objs IH]; intros acc w r objs' w' Hrun.
  - simpl in Hrun. simplify_eq. constructor.
  - simpl in Hrun. destruct (body acc (o, w)) as [[acc1|e] [o1 w1]] eqn:Hstep.
    + destruct (for_each_acc body acc1 objs w1) as [r2 [objs2 w2]] eqn:Hloop.
      simplify_eq. constructor; [by eapply Hbody | by eapply IH].
    + simplify_eq. constructor; [by eapply Hbody|].
      clear -Hrefl. induction objs; constructor; auto.
Qed.

Lemma Forall2_same_image {A B} (f : A -> B) (l k : list A) :
  Forall2 (fun x y => f y = f x) l k -> f <$> k = f <$> l.
Proof.
  induction 1 as [|x y l k Hxy _ IH]; [done|]. by rewrite !fmap_cons, Hxy, IH.
Qed.

Lemma apply_entry_outcome flag m w flag' m' w' :
  OTAUpdater.apply_entry flag (m, w) = (Return flag', (m', w')) ->
  (OTAFileMetadata.new_version_available m = true /\ flag' = true
   /\ OTAFileMetadata.current m' ≠ OTAFileMetadata.current m)
  \/ (OTAFileMetadata.new_version_available m = false /\ flag' = flag /\ m' = m).
Proof.
  rewrite apply_entry_unfold. intros Hrun.
  destruct (OTAFileMetadata.new_version_available m) eqn:Hnew; [|right; by simplify_eq].
  left. destruct (OTAFileMetadata.set_current_to_latest (m, w)) as [[[]|e] [m1 w1]] eqn:Hset;
    [|by simplify_eq].
  destruct (set_current_to_latest_fields _ _ _ _ _ Hset) as (_&_&_&_&_&_&_&_&_&Hcur).
  destruct (OTADatabase.update (OTAFileMetadata.to_json m1) w1) as [[[]|e] w2];
    simplify_eq.
  repeat split. rewrite Hcur. apply bool_decide_eq_true in Hnew. congruence.
Qed.

Lemma apply_loop_flag files flag w flag' files' w' :
  for_each_acc OTAUpdater.apply_entry flag files w = (Return flag', (files', w')) ->
  flag' = true
  <-> flag = true
      \/ OTAFileMetadata.current <$> files' ≠ OTAFileMetadata.current <$> files.
Proof.
  revert flag w flag' files' w'.
  induction files as [|m files IH]; intros flag w flag' files' w' Hrun.
  - simpl in Hrun. simplify_eq. split; [auto|]. by intros [? | ?].
  - simpl in Hrun.
    destruct (OTAUpdater.apply_entry flag (m, w)) as [[flag1|e] [m1 w1]] eqn:Hstep;
      [|by simplify_eq].
    destruct (for_each_acc OTAUpdater.apply_entry flag1 files w1)
      as [r2 [files2 w2]] eqn:Hloop.
    simplify_eq. specialize (IH _ _ _ _ _ Hloop). rewrite IH, !fmap_cons.
    destruct (apply_entry_outcome _ _ _ _ _ _ Hstep)
      as [(_ & -> & Hne) | (_ & -> & ->)].
    + split; [|auto]. intros _. right. intros [= ? ?]. by apply Hne.
    + split.
      * intros [? | Hdiff]; [by left|]. right. intros [= ?]. by apply Hdiff.
      * intros [? | Hdiff]; [by left|]. right. intros Heq. apply Hdiff. by rewrite Heq.
Qed.

Section PassFacts.
Context `{Platform}.

Lemma update_latest_identity m w r m' w' :
  OTAFileMetadata.update_latest (m, w) = (r, (m', w')) ->
  same_identity m m' /\ OTAFileMetadata.current m' = OTAFileMetadata.current m.
Proof. intros Hrun. fetch_cases Hrun; by repeat split. Qed.

Lemma apply_entry_identity flag m w r m' w' :
  OTAUpdater.apply_entry flag (m, w) = (r, (m', w')) -> same_identity m m'.
Proof.
  rewrite apply_entry_unfold. intros Hrun.
  destruct (OTAFileMetadata.new_version_available m); [|by simplify_eq].
  destruct (OTAFileMetadata.set_current_to_latest (m, w)) as [r1 [m1 w1]] eqn:Hset.
  assert (Hid : same_identity m m1).
  { revert Hset. rewrite set_current_to_latest_unfold. cbv zeta.
    intros Hset. repeat case_match; by simplify_eq. }
  destruct r1 as [[]|e]; [|by simplify_eq].
  destruct (OTADatabase.update (OTAFileMetadata.to_json m1) w1) as [[[]|e] w2];
    by simplify_eq.
Qed.

Lemma fetch_loop_currents files w r files' w' :
  for_each_acc (fun _ => OTAFileMetadata.update_latest) tt files w = (r, (files', w')) ->
  OTAFileMetadata.current <$> files' = OTAFileMetadata.current <$> files.
Proof.
  intros Hrun. apply Forall2_same_image.
  eapply (for_each_acc_related _
            (fun m m' => OTAFileMetadata.current m' = OTAFileMetadata.current m));
    [done | | exact Hrun].
  intros acc m w0 r0 m' w0' Hstep. by destruct (update_latest_identity _ _ _ _ _ Hstep).
Qed.
End PassFacts.

(** X18. When [_check_for_updates] returns, it returns [True] exactly when
    the pass has changed the current fingerprint of at least one monitored
    file, that is, when it has promoted one. *)
Theorem check_for_updates_true_iff_promoted `{Platform} :
  forall u w flag u' w',
    OTAUpdater._check_for_updates (u, w) = (Return flag, (u', w')) ->
    flag = true
    <-> OTAFileMetadata.current <$> OTAUpdater.files_obj u'
        ≠ OTAFileMetadata.current <$> OTAUpdater.files_obj u.
Proof.
  intros u w flag u' w'. rewrite check_for_updates_unfold, fetch_updates_unfold.
  destruct (for_each_acc _ tt (OTAUpdater.files_obj u) w) as [r1 [files1 w1]] eqn:Hfetch.
  pose proof (fetch_loop_currents _ _ _ _ _ Hfetch) as Hcur.
  assert (Hloop : forall w1',
             (let '(r, (files', w')) :=
                for_each_acc OTAUpdater.apply_entry false files1 w1' in
              (r, (OTAUpdater.set_files_obj files' (OTAUpdater.set_files_obj files1 u), w')))
             = (Return flag, (u', w')) ->
             flag = true
             <-> OTAFileMetadata.current <$> OTAUpdater.files_obj u'
                 ≠ OTAFileMetadata.current <$> OTAUpdater.files_obj u).
  { intros w1'.
    destruct (for_each_acc OTAUpdater.apply_entry false files1 w1')
      as [r2 [files2 w2]] eqn:Happly.
    intros Hrun. simplify_eq. simpl. rewrite <- Hcur.
    rewrite (apply_loop_flag _ _ _ _ _ _ Happly). split; [|auto].
    by intros [? | ?]. }
  destruct r1 as [[]|e]; [apply Hloop|].
  destruct e; try (intros; by simplify_eq). apply Hloop.
Qed.

Lemma check_for_updates_true_witness :
  true = true
  <-> OTAFileMetadata.current <$> OTAUpdater.files_obj (updater_of [promoted_main])
      ≠ OTAFileMetadata.current
          <$> OTAUpdater.files_obj (updater_of [fresh_file "main.py" false]).
Proof.
  apply (@check_for_updates_true_iff_promoted demo_platform
           (updater_of [fresh_file "main.py" false]) empty_store_device true
           (updater_of [promoted_main]) promoted_device).
  vm_compute. reflexivity.
Defined.

(** ** updated: resets, requests, and what stays fixed *)

Lemma grown_without_reset_refl w : grown_without_reset w w.
Proof. exists []. split; [by rewrite app_nil_r | apply not_elem_of_nil]. Qed.

Lemma grown_without_reset_trans w1 w2 w3 :
  grown_without_reset w1 w2 -> grown_without_reset w2 w3 -> grown_without_reset w1 w3.
Proof.
  intros (l1 & Hl1 & Hn1) (l2 & Hl2 & Hn2). exists (l1 ++ l2)%list. split.
  - by rewrite Hl2, Hl1, app_assoc.
  - intros Hin. apply elem_of_app in Hin as [?|?]; auto.
Qed.

Lemma grown_without_reset_same w w' : log w' = log w -> grown_without_reset w w'.
Proof. intros Hlog. exists []. split; [by rewrite app_nil_r | apply not_elem_of_nil]. Qed.

Lemma grown_without_reset_by w w' l :
  log w' = (log w ++ l)%list -> Forall (fun e => e ≠ Reset) l -> grown_without_reset w w'.
Proof.
  intros Hlog Hall. exists l. split; [done|].
  intros Hin. by apply (proj1 (Forall_forall _ _) Hall Reset Hin).
Qed.

Section Quiet.
Context `{Platform}.

Lemma update_latest_quiet m w r m' w' :
  OTAFileMetadata.update_latest (m, w) = (r, (m', w')) -> grown_without_reset w w'.
Proof.
  intros Hrun. fetch_cases Hrun; unfold logged, sent, collected, with_fs; simpl;
    first [ by apply grown_without_reset_same
          | eapply grown_without_reset_by;
            [simpl; rewrite <- ?app_assoc; simpl; reflexivity
            | repeat constructor; discriminate] ].
Qed.

Lemma apply_entry_log flag m w r m' w' :
  OTAUpdater.apply_entry flag (m, w) = (r, (m', w')) -> log w' = log w.
Proof.
  rewrite apply_entry_unfold. intros Hrun.
  destruct (OTAFileMetadata.new_version_available m); [|by simplify_eq].
  destruct (OTAFileMetadata.set_current_to_latest (m, w)) as [r1 [m1 w1]] eqn:Hset.
  destruct (set_current_to_latest_fields _ _ _ _ _ Hset) as (_&_&_&_&_&_&Hlog&_).
  destruct r1 as [[]|e]; [|by simplify_eq].
  unfold OTAFileMetadata.to_json in Hrun. rewrite database_update_unfold in Hrun.
  destruct (db_file w1); by simplify_eq.
Qed.

Lemma apply_loop_log flag files w r files' w' :
  for_each_acc OTAUpdater.apply_entry flag files w = (r, (files', w')) -> log w' = log w.
Proof.
  apply (for_each_acc_world _ (fun w w' => log w' = log w)); [done | congruence |].
  intros acc o w0 r0 o' w0'. apply apply_entry_log.
Qed.

Lemma check_for_updates_quiet u w r u' w' :
  OTAUpdater._check_for_updates (u, w) = (r, (u', w')) ->
  grown_without_reset w w'
  /\ OTAUpdater.last_update_time u' = OTAUpdater.last_update_time u
  /\ OTAUpdater.update_interval_seconds u' = OTAUpdater.update_interval_seconds u
  /\ OTAUpdater.update_interval_minutes u' = OTAUpdater.update_interval_minutes u
  /\ OTAUpdater.save_backups u' = OTAUpdater.save_backups u.
Proof.
  rewrite check_for_updates_unfold, fetch_updates_unfold.
  destruct (for_each_acc _ tt (OTAUpdater.files_obj u) w) as [r1 [files1 w1]] eqn:Hfetch.
  assert (Hq1 : grown_without_reset w w1).
  { eapply (for_each_acc_world _ grown_without_reset);
      [apply grown_without_reset_refl | apply grown_without_reset_trans | | exact Hfetch].
    intros acc o w0 r0 o' w0'. apply update_latest_quiet. }
  assert (Hloop : forall w1',
             grown_without_reset w w1' ->
             (let '(r, (files', w')) :=
                for_each_acc OTAUpdater.apply_entry false files1 w1' in
              (r, (OTAUpdater.set_files_obj files' (OTAUpdater.set_files_obj files1 u), w')))
             = (r, (u', w')) ->
             grown_without_reset w w'
             /\ OTAUpdater.last_update_time u' = OTAUpdater.last_update_time u
             /\ OTAUpdater.update_interval_seconds u' = OTAUpdater.update_interval_seconds u
             /\ OTAUpdater.update_interval_minutes u' = OTAUpdater.update_interval_minutes u
             /\ OTAUpdater.save_backups u' = OTAUpdater.save_backups u).
  { intros w1' Hq.
    destruct (for_each_acc OTAUpdater.apply_entry false files1 w1')
      as [r2 [files2 w2]] eqn:Happly.
    intros Hrun. simplify_eq. split; [|done].
    eapply grown_without_reset_trans; [exact Hq|].
    apply grown_without_reset_same. by eapply apply_loop_log. }
  destruct r1 as [[]|e]; [by apply Hloop|].
  destruct e; try (intros; by simplify_eq).
  apply Hloop. eapply grown_without_reset_trans; [exact Hq1|].
  eapply grown_without_reset_by; [reflexivity|]. repeat constructor. discriminate.
Qed.
End Quiet.



Lemma same_identity_images (l k : list OTAFileMetadata.t) :
  Forall2 same_identity l k ->
  OTAFileMetadata.filename <$> k = OTAFileMetadata.filename <$> l
  /\ OTAFileMetadata.url <$> k = OTAFileMetadata.url <$> l
  /\ OTAFileMetadata.save_backups <$> k = OTAFileMetadata.save_backups <$> l.
Proof.
  intros Hrel. repeat split; apply Forall2_same_image;
    (eapply Forall2_impl; [exact Hrel|]); by intros x y (?&?&?&?).
Qed.

Section Fixed.
Context `{Platform}.

Lemma check_for_updates_identity u w r u' w' :
  OTAUpdater._check_for_updates (u, w) = (r, (u', w')) ->
  OTAFileMetadata.filename <$> OTAUpdater.files_obj u'
  = OTAFileMetadata.filename <$> OTAUpdater.files_obj u
  /\ OTAFileMetadata.url <$> OTAUpdater.files_obj u'
     = OTAFileMetadata.url <$> OTAUpdater.files_obj u
  /\ OTAFileMetadata.save_backups <$> OTAUpdater.files_obj u'
     = OTAFileMetadata.save_backups <$> OTAUpdater.files_obj u.
Proof.
  rewrite check_for_updates_unfold, fetch_updates_unfold.
  destruct (for_each_acc _ tt (OTAUpdater.files_obj u) w) as [r1 [files1 w1]] eqn:Hfetch.
  assert (Hid1 : Forall2 same_identity (OTAUpdater.files_obj u) files1).
  { eapply (for_each_acc_related _ same_identity); [done | | exact Hfetch].
    intros acc m w0 r0 m' w0' Hstep.
    by destruct (update_latest_identity _ _ _ _ _ Hstep). }
  destruct (same_identity_images _ _ Hid1) as (Hn1 & Hu1 & Hb1).
  assert (Hloop : forall w1',
             (let '(r, (files', w')) :=
                for_each_acc OTAUpdater.apply_entry false files1 w1' in
              (r, (OTAUpdater.set_files_obj files' (OTAUpdater.set_files_obj files1 u), w')))
             = (r, (u', w')) ->
             OTAFileMetadata.filename <$> OTAUpdater.files_obj u'
             = OTAFileMetadata.filename <$> OTAUpdater.files_obj u
             /\ OTAFileMetadata.url <$> OTAUpdater.files_obj u'
                = OTAFileMetadata.url <$> OTAUpdater.files_obj u
             /\ OTAFileMetadata.save_backups <$> OTAUpdater.files_obj u'
                = OTAFileMetadata.save_backups <$> OTAUpdater.files_obj u).
  { intros w1'.
    destruct (for_each_acc OTAUpdater.apply_entry false files1 w1')
      as [r2 [files2 w2]] eqn:Happly.
    intros Hrun. simplify_eq. simpl.
    assert (Hid2 : Forall2 same_identity files1 files2).
    { eapply (for_each_acc_related _ same_identity); [done | | exact Happly].
      intros acc m w0 r0 m' w0'. apply apply_entry_identity. }
    destruct (same_identity_images _ _ Hid2) as (Hn2 & Hu2 & Hb2).
    repeat split; congruence. }
  destruct r1 as [[]|e]; [by apply Hloop|].
  destruct e; try (intros; by simplify_eq). by apply Hloop.
Qed.



End Fixed.

(** X20. A call of [updated], whatever its outcome, leaves the monitored
    files the same in number, order, name, URL and backup setting, and
    leaves the interval and the backup setting of the orchestrator as they
    were. *)
Theorem updated_keeps_configuration `{Platform} :
  forall force now u w,
    let u' := fst (snd (OTAUpdater.updated force now (u, w))) in
    OTAFileMetadata.filename <$> OTAUpdater.files_obj u'
    = OTAFileMetadata.filename <$> OTAUpdater.files_obj u
    /\ OTAFileMetadata.url <$> OTAUpdater.files_obj u'
       = OTAFileMetadata.url <$> OTAUpdater.files_obj u
    /\ OTAFileMetadata.save_backups <$> OTAUpdater.files_obj u'
       = OTAFileMetadata.save_backups <$> OTAUpdater.files_obj u
    /\ OTAUpdater.update_interval_seconds u' = OTAUpdater.update_interval_seconds u
    /\ OTAUpdater.update_interval_minutes u' = OTAUpdater.update_interval_minutes u
    /\ OTAUpdater.save_backups u' = OTAUpdater.save_backups u.
Proof.
  intros force now u w u'. subst u'. rewrite updated_unfold.
  destruct (runs_pass force now u); [|done].
  rewrite check_and_apply_updates_unfold.
  destruct (OTAUpdater._check_for_updates (u, w)) as [r1 [u1 w1]] eqn:Hpass.
  destruct (check_for_updates_identity _ _ _ _ _ Hpass) as (Hn & Hu & Hb).
  destruct (check_for_updates_quiet _ _ _ _ _ Hpass) as (_ & _ & Hs & Hm & Hsb).
  destruct r1 as [[]|e]; simpl; done.
Qed.


(** ** The memory floor *)

(** X22. The floor of the low-memory check is 32000 bytes, inclusive: with
    a first reading of 32000 or more [update_latest] goes on to make its
    request, and with a reading below it raises OTANoMemory before any
    request, leaving the object, the files and the log as they were. So a
    call has made no request exactly when its first reading was below the
    floor. *)
Theorem update_latest_memory_floor `{Platform} :
  forall m w,
    ((mem_free (gc_runs w) < 32000)%Z ->
     OTAFileMetadata.update_latest (m, w) = (Raise OTANoMemory, (m, collected w)))
    /\ ((32000 <= mem_free (gc_runs w))%Z ->
        requests (snd (snd (OTAFileMetadata.update_latest (m, w)))) = S (requests w))
    /\ (requests (snd (snd (OTAFileMetadata.update_latest (m, w)))) = requests w
        <-> (mem_free (gc_runs w) < 32000)%Z).
Proof.
  intros m w.
  assert (Hlow : (mem_free (gc_runs w) < 32000)%Z ->
                 OTAFileMetadata.update_latest (m, w)
                 = (Raise OTANoMemory, (m, collected w))).
  { intros Hm. rewrite update_latest_unfold.
    change OTAFileMetadata.OTA_MINIMUM_MEMORY with 32000%Z.
    apply Z.ltb_lt in Hm. by rewrite Hm. }
  assert (Hok : (32000 <= mem_free (gc_runs w))%Z ->
                requests (snd (snd (OTAFileMetadata.update_latest (m, w))))
                = S (requests w)).
  { intros Hm. rewrite update_latest_unfold.
    change OTAFileMetadata.OTA_MINIMUM_MEMORY with 32000%Z.
    apply Z.ltb_ge in Hm. rewrite Hm. cbv zeta. by repeat case_match. }
  split; [exact Hlow|]. split; [exact Hok|]. split.
  - intros Hsame. destruct (Z.lt_ge_cases (mem_free (gc_runs w)) 32000) as [?|Hge]; [done|].
    rewrite (Hok Hge) in Hsame. lia.
  - intros Hm. by rewrite (Hlow Hm).
Qed.

Lemma update_latest_memory_floor_witness :
  @OTAFileMetadata.update_latest (starved_platform 0) (fresh_file "main.py" false, blank_device)
  = (Raise OTANoMemory, (fresh_file "main.py" false, collected blank_device)).
Proof.
  apply (proj1 (@update_latest_memory_floor (starved_platform 0)
                  (fresh_file "main.py" false) blank_device)).
  vm_compute. reflexivity.
Defined.

(** ** Construction and the container *)

Lemma database_create_all_returns files w w' :
  iter (fun e => OTADatabase.create (OTAFileMetadata.to_json e)) files w = (Return tt, w') ->
  files ≠ [] ->
  db_file w' = Some (default ∅ (db_file w)
                     ∪ list_to_map (OTAFileMetadata.to_json <$> files)).
Proof.
  revert w w'. induction files as [|m files IH]; intros w w' Hrun Hne; [done|].
  rewrite iter_cons in Hrun. cbv beta in Hrun.
  unfold OTAFileMetadata.to_json at 1 in Hrun. rewrite database_create_unfold in Hrun.
  assert (Hstep : exists data0 : gmap string entry,
             data0 = default ∅ (db_file w)
             /\ data0 !! OTAFileMetadata.filename m = None
             /\ iter (fun e => OTADatabase.create (OTAFileMetadata.to_json e)) files
                  (with_db (Some (<[OTAFileMetadata.filename m
                                    := Entry (OTAFileMetadata.latest m)
                                             (OTAFileMetadata.current m)]> data0)) w)
                = (Return tt, w')).
  { destruct (db_file w) as [data0|].
    - destruct (bool_decide (is_Some (data0 !! OTAFileMetadata.filename m))) eqn:Hin;
        [discriminate|].
      exists data0. split; [done|]. split; [|done].
      apply bool_decide_eq_false in Hin.
      destruct (data0 !! OTAFileMetadata.filename m) eqn:E; [|done].
      destruct Hin. eauto.
    - exists ∅. split; [done|]. split; [apply lookup_empty | done]. }
  destruct Hstep as (data0 & <- & Hfree & Hrest).
  unfold OTAFileMetadata.to_json at 1. rewrite fmap_cons. simpl.
  destruct files as [|m2 files].
  - unfold iter, ret in Hrest. simplify_eq. simpl. f_equal.
    rewrite <- insert_union_r by done. by rewrite (right_id_L ∅ (∪)).
  - rewrite (IH _ _ Hrest) by done. simpl. f_equal.
    rewrite <- insert_union_l. by apply insert_union_r.
Qed.

Section Recorded.
Context `{Platform}.

Lemma make_files_container user token repo backups names w r w' :
  OTAUpdater.make_files user token repo names backups w = (r, w') ->
  db_file w' = db_file w.
Proof.
  revert w r w'. induction names as [|name names IH]; intros w r w' Hrun.
  - unfold OTAUpdater.make_files, ret in Hrun. by simplify_eq.
  - simpl in Hrun. unfold bind, ret in Hrun. rewrite metadata_init_unfold in Hrun.
    destruct (OTAFileMetadata.update_latest _) as [r1 [m1 w1]] eqn:Hfetch.
    destruct (update_latest_fields _ _ _ _ _ Hfetch) as (_&_&_&_&Hdb).
    destruct r1 as [[]|e]; [|by simplify_eq].
    destruct (OTAUpdater.make_files user token repo names backups w1)
      as [r2 w2] eqn:Hrest.
    pose proof (IH _ _ _ Hrest) as Hdb2.
    destruct r2; simplify_eq; congruence.
Qed.

Lemma make_repos_container user token backups repo_dct w r w' :
  OTAUpdater.make_repos user token repo_dct backups w = (r, w') ->
  db_file w' = db_file w.
Proof.
  revert w r w'. induction repo_dct as [|[repo names] rest IH]; intros w r w' Hrun.
  - unfold OTAUpdater.make_repos, ret in Hrun. by simplify_eq.
  - simpl in Hrun. unfold bind, ret in Hrun.
    destruct (OTAUpdater.make_files user token repo names backups w)
      as [r1 w1] eqn:Hfiles.
    pose proof (make_files_container _ _ _ _ _ _ _ _ Hfiles) as Hdb1.
    destruct r1 as [ms1|e]; [|by simplify_eq].
    destruct (OTAUpdater.make_repos user token rest backups w1) as [r2 w2] eqn:Hrest.
    pose proof (IH _ _ _ Hrest) as Hdb2.
    destruct r2; simplify_eq; congruence.
Qed.
End Recorded.

(** X23. When [OTAUpdater(...)] with [update_on_initialization=False]
    returns, the persisted container holds every entry it held before,
    unchanged, and in addition, for every monitored file whose name it
    did not hold, the entry of that file as the constructor built it
    ([latest]: the fingerprint just fetched, [current]: the fingerprint
    of the local file). A container that did not exist has been created
    with exactly the entries of the monitored files. *)
Theorem constructor_records_every_file `{Platform} :
  forall user token repo_dct interval backups now w u w',
    OTAUpdater.__init__ user token repo_dct interval false backups now w
    = (Return u, w') ->
    (forall data, db_file w = Some data ->
       db_file w' = Some (data ∪ list_to_map (OTAFileMetadata.to_json
                                               <$> OTAUpdater.files_obj u)))
    /\ (db_file w = None -> OTAUpdater.files_obj u ≠ [] ->
        db_file w' = Some (list_to_map (OTAFileMetadata.to_json
                                          <$> OTAUpdater.files_obj u))).
Proof.
  intros user token repo_dct interval backups now w u w'.
  rewrite updater_init_unfold. intros Hrun.
  destruct (OTAUpdater.make_repos _ _ _ _ _) as [[files|e] w1] eqn:Hrepos;
    [|by simplify_eq].
  pose proof (make_repos_container _ _ _ _ _ _ _ Hrepos) as Hdb1.
  destruct (OTADatabase.__init__ files w1) as [[[]|e] w2] eqn:Hinit; [|by simplify_eq].
  cbv zeta in Hrun. simplify_eq. simpl. split.
  - intros data Hdb. rewrite <- Hdb1 in Hdb.
    destruct (database_init_present files w1 data Hdb) as (w2 & Hinit2 & _ & Hdb2).
    congruence.
  - intros Hdb Hne. rewrite <- Hdb1 in Hdb.
    unfold OTADatabase.__init__, bind, OTADatabase.db_file_exists, gets in Hinit.
    simpl in Hinit.
    rewrite Hdb, bool_decide_eq_false_2 in Hinit by (intros [? ?]; discriminate).
    rewrite (database_create_all_returns _ _ _ Hinit Hne), Hdb. simpl.
    by rewrite (left_id_L ∅ (∪)).
Qed.

Lemma constructor_records_witness :
  (forall data, db_file blank_device = Some data ->
     db_file constructed_device
     = Some (data ∪ list_to_map
                      (OTAFileMetadata.to_json
                         <$> OTAUpdater.files_obj
                               (OTAUpdater.Make [staged_main] false (Some 60%Z)
                                  (Some 3600%Z) None))))
  /\ (db_file blank_device = None ->
      OTAUpdater.files_obj (OTAUpdater.Make [staged_main] false (Some 60%Z)
                              (Some 3600%Z) None) ≠ [] ->
      db_file constructed_device
      = Some (list_to_map
                (OTAFileMetadata.to_json
                   <$> OTAUpdater.files_obj
                         (OTAUpdater.Make [staged_main] false (Some 60%Z)
                            (Some 3600%Z) None)))).
Proof.
  apply (@constructor_records_every_file demo_platform "u" "t" [("o/r", ["main.py"])]
           (Some 60%Z) false 0%Z blank_device).
  vm_compute. reflexivity.
Defined.

(** ** Two passes in a row *)

Lemma for_each_acc_returned {O W A} (body : A -> M (O * W) A) (R : O -> O -> Prop) :
  (forall acc o w acc' o' w', body acc (o, w) = (Return acc', (o', w')) -> R o o') ->
  forall objs acc w acc' objs' w',
    for_each_acc body acc objs w = (Return acc', (objs', w')) -> Forall2 R objs objs'.
Proof.
  intros Hbody. induction objs as [|o objs IH]; intros acc w acc' objs' w' Hrun.
  - simpl in Hrun. simplify_eq. constructor.
  - simpl in Hrun. destruct (body acc (o, w)) as [[acc1|e] [o1 w1]] eqn:Hstep;
      [|by simplify_eq].
    destruct (for_each_acc body acc1 objs w1) as [r2 [objs2 w2]] eqn:Hloop.
    simplify_eq. constructor; [by eapply Hbody | by eapply IH].
Qed.

Lemma Forall2_chain {A} (R S : A -> A -> Prop) (l k j : list A) :
  Forall2 R l k -> Forall2 S k j -> Forall2 (fun x z => exists y, R x y /\ S y z) l j.
Proof.
  intros Hlk. revert j. induction Hlk as [|x y l k Hxy _ IH]; intros j Hkj.
  - inversion Hkj. constructor.
  - inversion Hkj as [|? z ? j' Hyz Hrest]; subst. constructor; [eauto | by apply IH].
Qed.

Section SecondPass.
Context `{Platform}.

Lemma update_latest_learns_fingerprint m w x m' w' sha :
  (forall n, exists content,
      remote n (OTAFileMetadata.url m) = Json (Some sha) content) ->
  OTAFileMetadata.update_latest (m, w) = (Return x, (m', w')) ->
  OTAFileMetadata.url m' = OTAFileMetadata.url m
  /\ OTAFileMetadata.latest m' = Some sha.
Proof.
  intros Hfixed Hrun. destruct (Hfixed (requests w)) as [content Hreply].
  fetch_cases Hrun; done.
Qed.

Lemma apply_entry_settles flag m w flag' m' w' :
  OTAUpdater.apply_entry flag (m, w) = (Return flag', (m', w')) ->
  OTAFileMetadata.url m' = OTAFileMetadata.url m
  /\ OTAFileMetadata.latest m' = OTAFileMetadata.latest m
  /\ OTAFileMetadata.current m' = OTAFileMetadata.latest m'.
Proof.
  rewrite apply_entry_unfold. intros Hrun.
  destruct (OTAFileMetadata.new_version_available m) eqn:Hnew.
  - destruct (OTAFileMetadata.set_current_to_latest (m, w)) as [[[]|e] [m1 w1]] eqn:Hset;
      [|by simplify_eq].
    destruct (set_current_to_latest_fields _ _ _ _ _ Hset) as (_&Hurl&_&Hlatest&_&_&_&_&_&Hcur).
    destruct (OTADatabase.update (OTAFileMetadata.to_json m1) w1) as [[[]|e] w2];
      simplify_eq.
    repeat split; congruence.
  - simplify_eq. repeat split.
    apply bool_decide_eq_false in Hnew. by apply dec_stable in Hnew.
Qed.

Lemma first_pass_settles u w flag u' w' :
  (forall m, m ∈ OTAUpdater.files_obj u ->
     exists sha, forall n, exists content,
       remote n (OTAFileMetadata.url m) = Json (Some sha) content) ->
  OTAUpdater._check_for_updates (u, w) = (Return flag, (u', w')) ->
  forall n m', m' ∈ OTAUpdater.files_obj u' ->
    exists sha content,
      remote n (OTAFileMetadata.url m') = Json (Some sha) content
      /\ OTAFileMetadata.current m' = Some sha.
Proof.
  intros Hfixed Hrun.
  assert (Hfetched : exists files1 w1 w1',
             for_each_acc (fun _ => OTAFileMetadata.update_latest) tt
               (OTAUpdater.files_obj u) w = (Return tt, (files1, w1))
             /\ for_each_acc OTAUpdater.apply_entry false files1 w1'
                = (Return flag, (OTAUpdater.files_obj u', w'))).
  { destruct (for_each_acc (fun _ => OTAFileMetadata.update_latest) tt
                (OTAUpdater.files_obj u) w) as [r1 [files1 w1]] eqn:Hloop.
    destruct r1 as [[]|e].
    - exists files1, w1, w1. split; [done|].
      rewrite check_for_updates_unfold, fetch_updates_unfold, Hloop in Hrun.
      simpl in Hrun.
      destruct (for_each_acc OTAUpdater.apply_entry false files1 w1)
        as [r2 [files2 w2]]. by simplify_eq.
    - destruct (decide (e = OTANewFileWillNotValidate)) as [->|Hne].
      + destruct (fetch_loop_validation_leaves_unstaged _ _ _ _ Hloop)
          as (m & Hin & Hnew & Hnone).
        assert (Hfetch : OTAUpdater.fetch_updates (u, w)
                         = (Return tt, (OTAUpdater.set_files_obj files1 u,
                                        logged (Print "OTAU: Validation error. Cannot update")
                                          w1))).
        { by rewrite fetch_updates_unfold, Hloop. }
        destruct (pass_with_unstaged_pending_raises _ _ _ _ _ Hfetch Hin Hnew Hnone)
          as (e & He & _).
        rewrite Hrun in He. discriminate.
      + rewrite check_for_updates_unfold, fetch_updates_unfold, Hloop in Hrun.
        destruct e; try congruence; by simplify_eq. }
  destruct Hfetched as (files1 & w1 & w1' & Hfetch & Happly).
  pose proof (for_each_acc_returned _
                (fun m m1 => forall sha,
                     (forall n, exists content,
                         remote n (OTAFileMetadata.url m) = Json (Some sha) content) ->
                     OTAFileMetadata.url m1 = OTAFileMetadata.url m
                     /\ OTAFileMetadata.latest m1 = Some sha)
                (fun _ m w0 x m1 w0' Hstep sha Hsha =>
                   update_latest_learns_fingerprint m w0 x m1 w0' sha Hsha Hstep)
                _ _ _ _ _ _ Hfetch) as Hrel1.
  pose proof (for_each_acc_returned _
                (fun m1 m' => OTAFileMetadata.url m' = OTAFileMetadata.url m1
                              /\ OTAFileMetadata.latest m' = OTAFileMetadata.latest m1
                              /\ OTAFileMetadata.current m' = OTAFileMetadata.latest m')
                apply_entry_settles _ _ _ _ _ _ Happly) as Hrel2.
  pose proof (Forall2_chain _ _ _ _ _ Hrel1 Hrel2) as Hrel.
  intros n m' Hin'.
  apply list_elem_of_lookup in Hin' as [i Hi].
  destruct (Forall2_lookup_r _ _ _ _ _ Hrel Hi) as (m & Hm & m1 & H1 & Hurl & Hlatest & Hcur).
  destruct (Hfixed m) as [sha Hsha]; [by eapply list_elem_of_lookup_2|].
  destruct (H1 sha Hsha) as [Hurl1 Hlatest1].
  destruct (Hsha n) as [content Hreply].
  exists sha, content. split; congruence.
Qed.
End SecondPass.

(** X24. Against a remote whose fingerprints do not change, a pass that
    has returned has settled everything: the pass run right after it
    promotes nothing and writes nothing, and hands back [False] (or stops
    on the low-memory check). *)
Theorem second_pass_changes_nothing `{Platform} :
  forall u w flag u' w' r u'' w'',
    (forall m, m ∈ OTAUpdater.files_obj u ->
       exists sha, forall n, exists content,
         remote n (OTAFileMetadata.url m) = Json (Some sha) content) ->
    OTAUpdater._check_for_updates (u, w) = (Return flag, (u', w')) ->
    OTAUpdater._check_for_updates (u', w') = (r, (u'', w'')) ->
    (r = Return false \/ r = Raise OTANoMemory)
    /\ fs w'' = fs w' /\ db_file w'' = db_file w'
    /\ OTAFileMetadata.current <$> OTAUpdater.files_obj u''
       = OTAFileMetadata.current <$> OTAUpdater.files_obj u'.
Proof.
  intros u w flag u' w' r u'' w'' Hfixed Hfirst Hsecond.
  pose proof (first_pass_settles _ _ _ _ _ Hfixed Hfirst) as Hsame.
  destruct (check_for_updates_same_fingerprints _ _ _ _ _ Hsame Hsecond)
    as (Hfs & Hdb & Hcur & Hr & _).
  done.
Qed.

Lemma second_pass_witness :
  (Return false = Return false \/ Return false = @Raise bool OTANoMemory)
  /\ fs (collected (collected (sent (contents_url "o/r" "main.py") promoted_device)))
     = fs promoted_device
  /\ db_file (collected (collected (sent (contents_url "o/r" "main.py") promoted_device)))
     = db_file promoted_device
  /\ OTAFileMetadata.current <$> OTAUpdater.files_obj (updater_of [promoted_main])
     = OTAFileMetadata.current <$> OTAUpdater.files_obj (updater_of [promoted_main]).
Proof.
  apply (@second_pass_changes_nothing demo_platform
           (updater_of [fresh_file "main.py" false]) empty_store_device true
           (updater_of [promoted_main]) promoted_device
           (Return false) (updater_of [promoted_main])
           (collected (collected (sent (contents_url "o/r" "main.py") promoted_device)))).
  - intros m Hin. apply list_elem_of_singleton in Hin. subst m.
    exists "3d2b4b14efe535966493ee555dd7faa81063a251". intros n.
    exists (Some "eCA9IDE="). reflexivity.
  - vm_compute. reflexivity.
  - vm_compute. reflexivity.
Defined.
